(** * RFS Activ dashboard auto-login: a shallow embedding of [login.js]

    The script patches the Chromium profile's [Preferences] file, then drives
    a browser page through the portal's login form inside a bounded retry
    loop, navigates to the dashboard inside a second retry loop and finally
    installs a six-hour refresh timer.

    The browser is an external collaborator: every awaited Puppeteer call is a
    transition of an abstract world [W] that either resolves or rejects.  The
    script itself is written in a small state-and-exception monad over that
    world which also records, in order, every call the script issues, every
    console line it prints and every delay it waits for.

    Contents: JavaScript strings and completions; the site table; calls,
    events and the script monad; JSON documents and [updatePreferences];
    [login.js] (module [LoginJs]) and its TypeScript port (module
    [LoginTs]); functions that read a run; a simulated portal and sample
    profile directories to run the script on; then the properties. *)

From Stdlib Require Import Floats.
From stdpp Require Import gmap strings list fin_maps pretty.

Set Warnings "-register-all".

(** ** JavaScript strings *)

(** [s.startsWith(t)] *)
Fixpoint startsWith (s t : string) {struct t} : bool :=
  match t, s with
  | EmptyString, _ => true
  | String c t', String d s' => Ascii.eqb c d && startsWith s' t'
  | String _ _, EmptyString => false
  end.

(** [s.includes(t)]: [t] occurs somewhere in [s]. *)
Fixpoint includes (s t : string) : bool :=
  startsWith s t ||
  match s with
  | EmptyString => false
  | String _ s' => includes s' t
  end.

(** ** Thrown values and completions *)

(** A thrown value: the error's [name] and [message]. *)
Inductive exn := Err (name message : string).

(** [new Error(message)] *)
Definition Error (message : string) : exn := Err "Error" message.

(** How a statement or an awaited promise ends. *)
Inductive completion (A : Type) :=
  | Normal (a : A)
  | Throw (e : exn).
Arguments Normal {A} a.
Arguments Throw {A} e.

(** How the [try] block of a retry loop ends when it does not throw: through
    its [break], or by reaching its end. *)
Inductive signal := Break | Fallthrough.

(** ** The site table [pages] *)

(** The double quote that CSS attribute selectors contain. *)
Definition dquote : string := String (Ascii.ascii_of_nat 34) EmptyString.

(** [[attr="value"]] *)
Definition attr (name value : string) : string :=
  "[" +:+ name +:+ "=" +:+ dquote +:+ value +:+ dquote +:+ "]".

Module pages.
Module login.
Definition url := "https://activ.rfs.nsw.gov.au/webapp/loginu".
Definition username := "#input28".
Definition password := "#input60".
Definition nextButton :=
      "input.button.button-primary" +:+ attr "type" "submit" +:+ attr "value" "Next".
Definition verifyButton :=
      "input.button.button-primary" +:+ attr "type" "submit" +:+ attr "value" "Verify".
Definition rememberMe := "label" +:+ attr "for" "input36".
End login.
Module webapp.
Definition url := "https://activ.rfs.nsw.gov.au/webapp".
End webapp.
Module dashboard.
Definition url := "https://activ.rfs.nsw.gov.au/webapp/dashboard".
End dashboard.
End pages.

(** ** What the script does to the outside world *)

(** [waitUntil] options of navigation calls. *)
Inductive waitUntil := networkidle0 | networkidle2 | domcontentloaded.

(** The awaited Puppeteer calls of the script whose result value is not
    used: each one resolves or rejects. *)
Inductive call :=
  | Launch (args : list string)               (* puppeteer.launch({..., args}) *)
  | NewPage                                   (* browser.newPage() *)
  | KeyboardPress (key : string)              (* page.keyboard.press(key) *)
  | ClosePage (index : nat)                   (* openPages[index].close() *)
  | Goto (url : string) (wait : waitUntil)    (* page.goto(url, { waitUntil }) *)
  | WaitForSelector (selector : string) (timeout : N)
                                              (* page.waitForSelector(selector, { visible: true, timeout }) *)
  | Focus (selector : string)                 (* page.focus(selector) *)
  | TypeText (selector text : string)         (* page.type(selector, text) *)
  | Click (selector : string)                 (* page.click(selector) *)
  | HandleClick (selector : string)           (* handle.click(), handle = page.$(selector) *)
  | WaitForNavigation (wait : waitUntil)      (* page.waitForNavigation({ waitUntil }) *)
  | EvaluateZoom (zoom : string)              (* page.evaluate(() => document.body.style.zoom = zoom) *)
  | Reload (wait : waitUntil).                (* page.reload({ waitUntil }) *)

(** Everything observable that the script does, in the order it does it. *)
Inductive event :=
  | Called (c : call)                         (* an awaited call was issued *)
  | Queried (selector : string)               (* page.$(selector) *)
  | ListedPages                               (* browser.pages() *)
  | Slept (ms : N)                            (* new Promise(resolve => setTimeout(resolve, ms)) *)
  | TimerSet (ms : N)                         (* setInterval(callback, ms) *)
  | Logged (msg : string)                     (* console.log(msg) *)
  | LoggedError (msg : string) (error : option exn)   (* console.error(msg[, error]) *)
  | Mkdir (path : string)                     (* fs.mkdirSync(path, { recursive: true }) *)
  | Wrote (path : string).                    (* fs.writeFileSync(path, ...) returned *)

(** The browser as the script sees it.  Nothing is assumed about how it
    answers: a call may reject at any time, and a query may find an element
    or not. *)
Class Puppeteer (W : Type) := {
  perform_call : call → W → (exn + ()) * W;
  query_selector : string → W → (exn + bool) * W;
      (* page.$: [true] when a handle is returned, [false] for null *)
  browser_pages : W → (exn + nat) * W;
      (* browser.pages(): the length of the array *)
  page_url : W → string;
      (* page.url(), synchronous *)
  elapse : N → W → W
      (* what the world does while the script sleeps *)
}.

(** ** The script monad: world, completion, events issued *)

Section Script.
Context {W : Type} `{!Puppeteer W}.

Definition M (A : Type) : Type := W → completion A * W * list event.

#[global] Instance M_ret : MRet M := λ A a w, (Normal a, w, []).

#[global] Instance M_bind : MBind M := λ A B k m w,
  match m w with
  | (Normal a, w1, evs1) => let '(r, w2, evs2) := k a w1 in (r, w2, evs1 ++ evs2)
  | (Throw e, w1, evs1) => (Throw e, w1, evs1)
  end.

(** [throw e] *)
Definition throw {A : Type} (e : exn) : M A := λ w, (Throw e, w, []).

(** [try { m } catch (error) { handler error }] *)
Definition try_catch {A : Type} (m : M A) (handler : exn → M A) : M A := λ w,
  match m w with
  | (Normal a, w1, evs1) => (Normal a, w1, evs1)
  | (Throw e, w1, evs1) => let '(r, w2, evs2) := handler e w1 in (r, w2, evs1 ++ evs2)
  end.

Definition of_reply {A : Type} (r : exn + A) : completion A :=
  match r with inl e => Throw e | inr a => Normal a end.

(** [await c] for a call whose value is unused. *)
Definition await (c : call) : M () := λ w,
  let '(r, w') := perform_call c w in (of_reply r, w', [Called c]).

(** [await page.$(selector)], as the truth value the script tests. *)
Definition page_query (selector : string) : M bool := λ w,
  let '(r, w') := query_selector selector w in (of_reply r, w', [Queried selector]).

(** [(await browser.pages()).length] *)
Definition pages_length : M nat := λ w,
  let '(r, w') := browser_pages w in (of_reply r, w', [ListedPages]).

(** [page.url()] *)
Definition url : M string := λ w, (Normal (page_url w), w, []).

(** [await new Promise(resolve => setTimeout(resolve, ms))]: cannot reject. *)
Definition sleep (ms : N) : M () := λ w, (Normal (), elapse ms w, [Slept ms]).

(** [setInterval(callback, ms)]: registers the timer and returns.  The
    callback runs later, outside the function that registers it. *)
Definition setInterval (callback : M ()) (ms : N) : M () := λ w,
  (Normal (), w, [TimerSet ms]).

(** [function _log(msg) { console.log(msg); }] *)
Definition _log (msg : string) : M () := λ w, (Normal (), w, [Logged msg]).

(** [console.error(msg, error)] *)
Definition console_error (msg : string) (error : exn) : M () := λ w,
  (Normal (), w, [LoggedError msg (Some error)]).

(** [const retryDelay = 5000; // 5 seconds] *)
Definition retryDelay : N := 5000.

(** The shape shared by the two retry loops of [loginToRFSActiv]:
<<
    while (attempts < max) {
        try { block } catch (error) { on_error(attempts) }
        await new Promise(resolve => setTimeout(resolve, retryDelay));
        attempts++;
    }
>>
    where [block] may [break].  [attempt] is the [try] statement of one
    iteration; the value of [retry_while] is the counter when the loop is
    left.  [fuel] bounds the number of iterations; the phases run the loop
    with [max] of them, which is as many as the loop condition allows
    (lemma [retry_while_fuel]). *)
Definition attempt (block : M signal) (on_error : nat → M ()) (attempts : nat)
    : M signal :=
  try_catch block (λ _, on_error attempts;; mret Fallthrough).

Fixpoint retry_while (fuel : nat) (max : nat) (block : M signal)
    (on_error : nat → M ()) (attempts : nat) : M nat :=
  match fuel with
  | 0 => mret attempts
  | S fuel' =>
    if attempts <? max then
      s ← attempt block on_error attempts;
      match s with
      | Break => mret attempts
      | Fallthrough =>
          sleep retryDelay;;
          retry_while fuel' max block on_error (S attempts)
      end
    else mret attempts
  end.

(** The next [n] iterations of the loop, started in [w] with the counter at
    [attempts], all fail: none leaves through [break]. *)
Fixpoint all_fail (n : nat) (block : M signal) (on_error : nat → M ())
    (attempts : nat) (w : W) : bool :=
  match n with
  | 0 => true
  | S n' =>
      match attempt block on_error attempts w with
      | (Normal Fallthrough, w1, _) =>
          all_fail n' block on_error (S attempts) (elapse retryDelay w1)
      | _ => false
      end
  end.

(** The callback of the refresh timer:
    [async () => { _log("Refreshing page..."); await page.reload({ waitUntil: 'networkidle0' }); }]. *)
Definition refreshTick : M () :=
  _log "Refreshing page...";;
  await (Reload networkidle0).

End Script.

Arguments M : clear implicits.

(** ** JSON documents *)

(** What [JSON.parse] returns.  Numbers are IEEE doubles, as in JavaScript;
    an object is a finite map from property names to values. *)
Inductive json :=
  | JNull
  | JBool (b : bool)
  | JNum (x : float)
  | JStr (s : string)
  | JArr (items : list json)
  | JObj (fields : gmap string json).

(** Truthiness of a value: [null], [false], [0], [-0], [NaN] and the empty
    string are falsy. *)
Definition truthy (v : json) : bool :=
  match v with
  | JNull => false
  | JBool b => b
  | JNum x => negb (PrimFloat.eqb x 0 || PrimFloat.is_nan x)
  | JStr s => negb (bool_decide (s = ""))
  | JArr _ | JObj _ => true
  end.

(** The properties of an array-like value, under their decimal indices. *)
Definition indexed (items : list json) : gmap string json :=
  list_to_map (imap (λ i v, (pretty i, v)) items).

(** A JavaScript string is a sequence of UTF-16 code units; the strings of
    a document are held here in UTF-8, as in the file.  [code_points] reads
    the code points of a byte string: [need] is how many continuation bytes
    the character being read still lacks and [acc] what it has so far.  A
    byte that does not fit gives U+FFFD, as it does when Node decodes the
    file. *)
Fixpoint code_points (need : nat) (acc : N) (s : list Ascii.ascii) : list N :=
  match s with
  | [] => match need with 0 => [] | S _ => [65533%N] end
  | b :: s' =>
      let n := Ascii.N_of_ascii b in
      let first :=
        if (n <? 128)%N then n :: code_points 0 0 s'
        else if (192 <=? n)%N && (n <? 224)%N then code_points 1 (n - 192) s'
        else if (224 <=? n)%N && (n <? 240)%N then code_points 2 (n - 224) s'
        else if (240 <=? n)%N && (n <? 248)%N then code_points 3 (n - 240) s'
        else 65533%N :: code_points 0 0 s' in
      match need with
      | 0 => first
      | S need' =>
          if (128 <=? n)%N && (n <? 192)%N then
            let acc' := (acc * 64 + (n - 128))%N in
            match need' with
            | 0 => acc' :: code_points 0 0 s'
            | S _ => code_points need' acc' s'
            end
          else 65533%N :: first
      end
  end.

(** The code units of a code point: itself, or its two surrogates. *)
Definition surrogates (c : N) : list N :=
  if (c <? 65536)%N then [c]
  else [(55296 + (c - 65536) / 1024)%N; (56320 + (c - 65536) mod 1024)%N].

(** The string that holds one code unit. *)
Definition unit_string (u : N) : string :=
  if (u <? 128)%N then String (Ascii.ascii_of_N u) EmptyString
  else if (u <? 2048)%N then
    String (Ascii.ascii_of_N (192 + u / 64)) (String (Ascii.ascii_of_N (128 + u mod 64)) EmptyString)
  else
    String (Ascii.ascii_of_N (224 + u / 4096))
      (String (Ascii.ascii_of_N (128 + (u / 64) mod 64))
         (String (Ascii.ascii_of_N (128 + u mod 64)) EmptyString)).

(** The characters of a string as JavaScript indexes them: one per UTF-16
    code unit. *)
Definition code_units (s : string) : list string :=
  unit_string <$> (code_points 0 0 (String.list_ascii_of_string s) ≫= surrogates).

(** [{...v}]: the own enumerable properties of [v], where [None] is
    [undefined].  An object gives its fields, an array its items and a string
    its code units (indexed); [undefined], [null], booleans and numbers give
    nothing. *)
Definition spread (v : option json) : gmap string json :=
  match v with
  | Some (JObj fields) => fields
  | Some (JArr items) => indexed items
  | Some (JStr s) => indexed (JStr <$> code_units s)
  | Some JNull | Some (JBool _) | Some (JNum _) | None => ∅
  end.

(** How [JSON.stringify] writes a number, as [JSON.parse] reads it back:
    [NaN] and the infinities are written as [null], and negative zero as
    [0]; every other double is read back as it was. *)
Definition number (x : float) : json :=
  if PrimFloat.is_nan x || PrimFloat.is_infinity x then JNull
  else if PrimFloat.eqb x 0 then JNum 0
  else JNum x.

(** [JSON.parse(JSON.stringify(v, null, 2))]: the document that the text
    written for [v] holds.  ([JSON.parse] itself gives an infinity for a
    literal such as [1e999], and negative zero for [-0].) *)
Fixpoint stringify (v : json) : json :=
  match v with
  | JNum x => number x
  | JArr items => JArr (stringify <$> items)
  | JObj fields => JObj (stringify <$> fields)
  | JNull | JBool _ | JStr _ => v
  end.

(** The size of a document, for induction on documents. *)
Fixpoint json_size (v : json) : nat :=
  match v with
  | JArr items => S (foldr (λ v n, json_size v + n) 0 items)
  | JObj fields => S (map_fold (λ _ v n, json_size v + n) 0 fields)
  | JNull | JBool _ | JNum _ | JStr _ => 1
  end.

(** [target.key = value] for a truthy [target] and a [key] that is not an
    array index, as [JSON.stringify] later sees [target]: an object gets the
    property; an array gets it too, but it is not serialised; on a primitive
    the assignment is dropped without error ([login.js] is a sloppy-mode
    CommonJS script). *)
Definition assign (target : json) (key : string) (value : json) : json :=
  match target with
  | JObj fields => JObj (<[key := value]> fields)
  | other => other
  end.

(** ** [updatePreferences] *)

(** Lines 63-75 of [login.js], on the value [JSON.parse] returned (or [{}]).
    On an object the six assignments go through.  An array takes them as
    named properties, which [JSON.stringify] omits.  [null] has no
    properties to read, and on any other primitive the assignments to
    [preferences.session] are dropped, so that [preferences.session] is
    still [undefined] when [restore_on_startup] is set on it: both throw a
    [TypeError]. *)
Definition patchPreferences (preferences : json) : completion json :=
  match preferences with
  | JObj fields =>
      (* preferences.profile = { ...preferences.profile, ... } *)
      let profile :=
        JObj (<["password_manager_enabled" := JBool false]>
             (<["password_manager_leak_detection" := JBool false]>
              (spread (fields !! "profile")))) in
      let fields := <["profile" := profile]> fields in
      let fields := <["credentials_enable_service" := JBool false]> fields in
      let fields := <["credentials_enable_autosignin" := JBool false]> fields in
      (* preferences.session = preferences.session || {} *)
      let session :=
        match fields !! "session" with
        | Some v => if truthy v then v else JObj ∅
        | None => JObj ∅
        end in
      (* preferences.session.restore_on_startup = 0 *)
      let session := assign session "restore_on_startup" (JNum 0) in
      (* preferences.session.restore_on_startup_urls = [] *)
      let session := assign session "restore_on_startup_urls" (JArr []) in
      Normal (JObj (<["session" := session]> fields))
  | JArr items => Normal (JArr items)
  | JNull =>
      Throw (Err "TypeError" "Cannot read properties of null (reading 'profile')")
  | JBool _ | JNum _ | JStr _ =>
      Throw (Err "TypeError"
               "Cannot set properties of undefined (setting 'restore_on_startup')")
  end.

(** A file's text, kept up to [JSON.parse]: text that parses is represented
    by the document it parses to, so that writing [JSON.stringify(v, null, 2)]
    leaves [JsonText (stringify v)]. *)
Inductive file :=
  | JsonText (document : json)
  | Garbled (raw : string).

(** [userDataPath] on disk: missing, or a directory in which
    [Default/Preferences] exists or not. *)
Inductive directory :=
  | Missing
  | Present (Preferences : option file).

(** The part of the file system that [updatePreferences] touches, with what
    each of its three fallible calls throws, if it throws. *)
Record disk := {
  userData : directory;
  mkdir_error : option exn;     (* fs.mkdirSync *)
  read_error : option exn;      (* fs.readFileSync *)
  write_error : option exn      (* fs.writeFileSync; the file is then left as it was *)
}.

Definition with_userData (dir : directory) (d : disk) : disk :=
  {| userData := dir; mkdir_error := mkdir_error d;
     read_error := read_error d; write_error := write_error d |}.

(** The [Preferences] file, when [fs.existsSync(preferencesPath)]. *)
Definition preferencesFile (d : disk) : option file :=
  match userData d with
  | Missing => None
  | Present f => f
  end.

(** [JSON.parse(fs.readFileSync(preferencesPath, 'utf8'))] *)
Definition readPreferences (d : disk) (f : file) : exn + json :=
  match read_error d with
  | Some e => inl e
  | None =>
      match f with
      | JsonText document => inr document
      | Garbled raw => inl (Err "SyntaxError" "Unexpected token in JSON")
      end
  end.

Section Preferences.
(** [process.env.USER_DATA_PATH || path.resolve(__dirname, 'user-data')] *)
Context (userDataPath : string).

Definition preferencesPath : string := userDataPath +:+ "/Default/Preferences".

(** Lines 43-83 of [login.js].  An exception that no [catch] of the function
    handles rejects its promise: the completion is then [Throw]. *)
Definition updatePreferences (d : disk) : completion () * disk * list event :=
  (* Ensure userDataPath exists *)
  let ensured :=
    match userData d with
    | Missing =>
        match mkdir_error d with
        | Some e => inl e
        | None => inr (with_userData (Present None) d, [Mkdir userDataPath])
        end
    | Present _ => inr (d, [])
    end in
  match ensured with
  | inl e => (Throw e, d, [])
  | inr (d, evs) =>
      let evs := evs ++ [Logged "Checking for Preferences file..."] in
      match preferencesFile d with
      | None =>
          (Normal (), d,
           evs ++ [LoggedError "Preferences file still does not exist. Skipping update." None])
      | Some f =>
          (* let preferences = {}; try { preferences = JSON.parse(...) } catch ... *)
          let '(preferences, evs) :=
            match readPreferences d f with
            | inr document => (document, evs)
            | inl error =>
                (JObj ∅, evs ++ [LoggedError "Error reading Preferences file:" (Some error)])
            end in
          match patchPreferences preferences with
          | Throw e => (Throw e, d, evs)
          | Normal preferences =>
              (* try { fs.writeFileSync(...) } catch ... *)
              match write_error d with
              | None =>
                  (Normal (),
                   with_userData (Present (Some (JsonText (stringify preferences)))) d,
                   evs ++ [Wrote preferencesPath;
                           Logged "Updated Chrome preferences to disable password saving."])
              | Some error =>
                  (Normal (), d,
                   evs ++ [LoggedError "Error writing Preferences file:" (Some error)])
              end
          end
      end
  end.

End Preferences.

(** ** [login.js] *)

Module LoginJs.
Section Driver.
Context {W : Type} `{!Puppeteer W}.
(** [process.env.USERNAME] and [process.env.PASSWORD] *)
Context (USERNAME PASSWORD : string).

Definition browserArgs : list string :=
  [ "--no-sandbox"; "--disable-password-manager"; "--disable-save-password-bubble";
    "--suppress-message-center-popups"; "--hide-crash-restore-bubble";
    "--disable-setuid-sandbox"; "--start-fullscreen"; "--disable-notifications";
    "--disable-prompt-on-repost"; "--disable-infobars";
    "--disable-autofill-keyboard-accessory-view"; "--disable-password-generation";
    "--disable-autofill-profile-save"; "--disable-translate"; "--disable-sync";
    "--disable-extensions"; "--password-store=basic"; "--use-mock-keychain";
    "--disable-features=AutofillServerCommunication";
    "--disable-features=AutofillEnableAccountWalletStorage";
    "--disable-features=PasswordManagerOnboarding";
    "--disable-component-extensions-with-background-pages";
    "--disable-background-networking" ].

(** Lines 160-164: wait for the username field, focus it, type. *)
Definition enterUsername : M W () :=
  await (WaitForSelector pages.login.username 10000);;
  await (Focus pages.login.username);;
  await (TypeText pages.login.username USERNAME);;
  _log "Username entered.".

(** Lines 166-169: click 'Remember Me' if available. *)
Definition clickRememberMe : M W () :=
  rememberMeCheckbox ← page_query pages.login.rememberMe;
  (if rememberMeCheckbox : bool
   then await (HandleClick pages.login.rememberMe)
   else mret ());;
  _log "Remember Me clicked.".

(** Lines 171-184: Next, password, Verify, wait for the navigation. *)
Definition submitForm : M W () :=
  await (WaitForSelector pages.login.nextButton 5000);;
  await (Click pages.login.nextButton);;
  await (WaitForSelector pages.login.password 10000);;
  _log "Next clicked.";;
  await (TypeText pages.login.password PASSWORD);;
  await (WaitForSelector pages.login.verifyButton 5000);;
  await (Click pages.login.verifyButton);;
  _log "Password entered and attempting login.";;
  await (WaitForNavigation domcontentloaded).

(** Lines 186-192: check if we are on the dashboard. *)
Definition checkLanding : M W signal :=
  here ← url;
  if includes here pages.dashboard.url || includes here pages.webapp.url
  then _log "Login successful!";; mret Break
  else _log "Login failed. Retrying...";; mret Fallthrough.

(** Lines 160-184: the form flow, from the username field to the navigation
    that follows Verify. *)
Definition formFlow : M W () :=
  enterUsername;;
  clickRememberMe;;
  submitForm.

(** Lines 152-195: the [try] block of the login loop. *)
Definition loginTry : M W signal :=
  await (Goto pages.login.url networkidle2);;
  form ← page_query pages.login.username;
  if form : bool then
    _log "Login form detected. Logging in...";;
    formFlow;;
    checkLanding
  else
    _log "Login form not detected. Retrying...";;
    mret Fallthrough.

(** Line 197: the [catch] clause of the login loop.  [retryDelay / 1000] is
    the whole number 5. *)
Definition loginCatch (loginAttempts : nat) : M W () :=
  _log ("Login attempt " +:+ pretty (loginAttempts + 1) +:+ " failed. Retrying in "
        +:+ pretty (retryDelay `div` 1000)%N +:+ " seconds...").

(** Lines 147-205: the login loop and the check that follows it.  The bound
    is the constant 5 in the source; it is a parameter here so that
    statements can range over every bound. *)
Definition loginPhase (maxLoginAttempts : nat) : M W () :=
  loginAttempts ← retry_while maxLoginAttempts maxLoginAttempts loginTry loginCatch 0;
  if loginAttempts =? maxLoginAttempts
  then throw (Error "Max login attempts reached. Unable to login.")
  else mret ().

(** Lines 212-223: the [try] block of the navigation loop. *)
Definition navigationTry : M W signal :=
  _log "Navigating to dashboard...";;
  await (Goto pages.dashboard.url networkidle0);;
  here ← url;
  if includes here pages.dashboard.url
  then _log "Dashboard loaded.";; mret Break
  else _log "Navigation to dashboard failed. Retrying...";; mret Fallthrough.

(** Line 225 *)
Definition navigationCatch (navigationAttempts : nat) : M W () :=
  _log ("Navigation attempt " +:+ pretty (navigationAttempts + 1)
        +:+ " failed. Retrying in " +:+ pretty (retryDelay `div` 1000)%N +:+ " seconds...").

(** Lines 207-233 *)
Definition navigationPhase (maxNavigationAttempts : nat) : M W () :=
  navigationAttempts ←
    retry_while maxNavigationAttempts maxNavigationAttempts navigationTry navigationCatch 0;
  if navigationAttempts =? maxNavigationAttempts
  then throw (Error "Max navigation attempts reached. Unable to navigate to dashboard.")
  else mret ().

(** Lines 130-144: launch the browser, open the page, close the blank tab. *)
Definition openBrowser : M W () :=
  await (Launch browserArgs);;
  await NewPage;;
  await (KeyboardPress "F11");;
  openPages ← pages_length;
  if 1 <? openPages then await (ClosePage 0) else mret ().

(** Lines 128-247.  The source fixes both bounds to 5 ([main] below). *)
Definition loginToRFSActiv (maxLoginAttempts maxNavigationAttempts : nat) : M W () :=
  try_catch
    (openBrowser;;
     loginPhase maxLoginAttempts;;
     navigationPhase maxNavigationAttempts;;
     await (EvaluateZoom "1.3");;
     setInterval refreshTick (3600000 * 6))
    (λ error, console_error "Error during login:" error).

(** Lines 253-256:
    [(async () => { await updatePreferences(); await loginToRFSActiv(); })()].
    When [updatePreferences] rejects, the arrow function rejects at its first
    [await] and [loginToRFSActiv] is never called.  The disk of the result
    is the disk as the script's own file-system calls leave it: what the
    browser writes under [userDataDir] once it runs is the browser's. *)
Definition main (userDataPath : string) (d : disk) (w : W)
    : completion () * disk * W * list event :=
  match updatePreferences userDataPath d with
  | (Throw e, d', evs) => (Throw e, d', w, evs)
  | (Normal _, d', evs) =>
      let '(r, w', evs') := loginToRFSActiv 5 5 w in (r, d', w', evs ++ evs')
  end.

End Driver.
End LoginJs.

(** ** The TypeScript port of [login.js] *)

Module LoginTs.
Section Driver.
Context {W : Type} `{!Puppeteer W}.
Context (USERNAME PASSWORD : string).

Definition browserArgs : list string :=
  [ "--no-sandbox"; "--disable-password-manager"; "--disable-save-password-bubble";
    "--suppress-message-center-popups"; "--hide-crash-restore-bubble";
    "--disable-setuid-sandbox"; "--start-fullscreen"; "--disable-notifications";
    "--disable-infobars"; "--disable-autofill-profile-save"; "--disable-translate";
    "--disable-sync"; "--disable-extensions"; "--password-store=basic";
    "--use-mock-keychain" ].

(** [function isloggedInPage(page: Page): boolean] *)
Definition isloggedInPage : M W bool :=
  here ← url;
  if includes here pages.dashboard.url || includes here pages.webapp.url
  then mret true
  else mret false.

(** [process.env.X || '']: the empty string is the only falsy string. *)
Definition or_empty (s : string) : string :=
  if decide (s = "") then "" else s.

(** The [try] block of the login loop. *)
Definition loginTry : M W signal :=
  await (Goto pages.login.url networkidle2);;
  form ← page_query pages.login.username;
  if form : bool then
    _log "Login form detected. Logging in...";;
    await (WaitForSelector pages.login.username 10000);;
    await (TypeText pages.login.username (or_empty USERNAME));;
    rememberMeCheckbox ← page_query pages.login.rememberMe;
    (if rememberMeCheckbox : bool
     then await (HandleClick pages.login.rememberMe)
     else mret ());;
    await (WaitForSelector pages.login.nextButton 5000);;
    await (Click pages.login.nextButton);;
    await (WaitForSelector pages.login.password 10000);;
    await (TypeText pages.login.password (or_empty PASSWORD));;
    await (WaitForSelector pages.login.verifyButton 5000);;
    await (Click pages.login.verifyButton);;
    await (WaitForNavigation domcontentloaded);;
    ok ← isloggedInPage;
    if ok : bool
    then _log "Login successful!";; mret Break
    else _log "Login failed. Retrying...";; mret Fallthrough
  else
    ok ← isloggedInPage;
    if ok : bool
    then _log "Login successful!";; mret Break
    else _log "Login form not detected. Retrying...";; mret Fallthrough.

Definition loginCatch (loginAttempts : nat) : M W () :=
  _log ("Login attempt " +:+ pretty (loginAttempts + 1) +:+ " failed. Retrying in "
        +:+ pretty (retryDelay `div` 1000)%N +:+ " seconds...").

Definition loginPhase (maxLoginAttempts : nat) : M W () :=
  loginAttempts ← retry_while maxLoginAttempts maxLoginAttempts loginTry loginCatch 0;
  if loginAttempts =? maxLoginAttempts
  then throw (Error "Max login attempts reached. Unable to login.")
  else mret ().

(** The [try] block of the navigation loop (no log line on a wrong URL). *)
Definition navigationTry : M W signal :=
  _log "Navigating to dashboard...";;
  await (Goto pages.dashboard.url networkidle0);;
  here ← url;
  if includes here pages.dashboard.url
  then _log "Dashboard loaded.";; mret Break
  else mret Fallthrough.

Definition navigationCatch (navigationAttempts : nat) : M W () :=
  _log ("Navigation attempt " +:+ pretty (navigationAttempts + 1)
        +:+ " failed. Retrying in " +:+ pretty (retryDelay `div` 1000)%N +:+ " seconds...").

Definition navigationPhase (maxNavigationAttempts : nat) : M W () :=
  navigationAttempts ←
    retry_while maxNavigationAttempts maxNavigationAttempts navigationTry navigationCatch 0;
  if navigationAttempts =? maxNavigationAttempts
  then throw (Error "Max navigation attempts reached. Unable to navigate to dashboard.")
  else mret ().

Definition openBrowser : M W () :=
  await (Launch browserArgs);;
  await NewPage;;
  await (KeyboardPress "F11");;
  openPages ← pages_length;
  if 1 <? openPages then await (ClosePage 0) else mret ().

Definition loginToRFSActiv (maxLoginAttempts maxNavigationAttempts : nat) : M W () :=
  try_catch
    (openBrowser;;
     loginPhase maxLoginAttempts;;
     navigationPhase maxNavigationAttempts;;
     await (EvaluateZoom "1.25");;
     setInterval refreshTick (3600000 * 6))
    (λ error, console_error "Error during login:" error).

End Driver.
End LoginTs.

(** ** Reading a run *)

(** How many events of a run satisfy [p]. *)
Fixpoint count (p : event → bool) (evs : list event) : nat :=
  match evs with
  | [] => 0
  | e :: evs' => (if p e then 1 else 0) + count p evs'
  end.

(** A login attempt starts with the navigation to the login page, and
    nothing else navigates there. *)
Definition is_login_attempt (e : event) : bool :=
  match e with
  | Called (Goto u _) => String.eqb u pages.login.url
  | _ => false
  end.

(** Likewise for a navigation attempt and the dashboard. *)
Definition is_dashboard_attempt (e : event) : bool :=
  match e with
  | Called (Goto u _) => String.eqb u pages.dashboard.url
  | _ => false
  end.

Definition is_delay (e : event) : bool :=
  match e with
  | Slept _ => true
  | _ => false
  end.

(** The interactions with the page: waits for a selector or a navigation,
    typing, clicks. *)
Definition interaction (e : event) : option call :=
  match e with
  | Called (WaitForSelector sel t) => Some (WaitForSelector sel t)
  | Called (TypeText sel text) => Some (TypeText sel text)
  | Called (Click sel) => Some (Click sel)
  | Called (HandleClick sel) => Some (HandleClick sel)
  | Called (WaitForNavigation wu) => Some (WaitForNavigation wu)
  | _ => None
  end.

Definition interactions (evs : list event) : list call := omap interaction evs.

(** A delay of the script is always [retryDelay]. *)
Definition fixed_delay (e : event) : Prop := is_delay e = true → e = Slept retryDelay.

(** All the awaited calls of a run. *)
Definition calls (evs : list event) : list call :=
  omap (λ e, match e with Called c => Some c | _ => None end) evs.

(** The order of interactions of the form flow; [remember] tells whether the
    'remember me' label is clicked. *)
Definition form_sequence (USERNAME PASSWORD : string) (remember : bool) : list call :=
  [ WaitForSelector pages.login.username 10000;
    TypeText pages.login.username USERNAME ]
  ++ (if remember then [HandleClick pages.login.rememberMe] else [])
  ++ [ WaitForSelector pages.login.nextButton 5000;
       Click pages.login.nextButton;
       WaitForSelector pages.login.password 10000;
       TypeText pages.login.password PASSWORD;
       WaitForSelector pages.login.verifyButton 5000;
       Click pages.login.verifyButton;
       WaitForNavigation domcontentloaded ].

(** All the awaited calls of the form flow of [login.js], in the order of
    its lines: those up to the typing of the username (lines 161-163), and
    those from the click on the label, made when the label was found, to the
    wait for the navigation (lines 168-184). *)
Definition username_calls (USERNAME : string) : list call :=
  [ WaitForSelector pages.login.username 10000;
    Focus pages.login.username;
    TypeText pages.login.username USERNAME ].

Definition submit_calls (PASSWORD : string) (remember : bool) : list call :=
  (if remember then [HandleClick pages.login.rememberMe] else [])
  ++ [ WaitForSelector pages.login.nextButton 5000;
       Click pages.login.nextButton;
       WaitForSelector pages.login.password 10000;
       TypeText pages.login.password PASSWORD;
       WaitForSelector pages.login.verifyButton 5000;
       Click pages.login.verifyButton;
       WaitForNavigation domcontentloaded ].

(** The calls of a list issued one after the other from [w], each in the
    state that the one before it left, up to and including the first that
    is rejected: the calls issued, whether they all resolved, and the state
    reached. *)
Fixpoint issue {W : Type} `{!Puppeteer W} (cs : list call) (w : W)
    : list call * bool * W :=
  match cs with
  | [] => ([], true, w)
  | c :: cs' =>
      match perform_call c w with
      | (inl _, w') => ([c], false, w')
      | (inr _, w') =>
          let '(issued, resolved, w'') := issue cs' w' in (c :: issued, resolved, w'')
      end
  end.

(** ** A simulated portal

    A small deterministic stand-in for the site, used to run the script on
    concrete inputs. *)

Module Portal.

Record portal := {
  signed_in : bool;        (* the profile carries a live session *)
  remember_me : bool;      (* the form renders the 'remember me' label *)
  next_button : bool;      (* the Next button becomes visible *)
  credentials_ok : bool;   (* Verify accepts the credentials *)
  location : string        (* the URL the page is at *)
}.

Definition move (u : string) (signed : bool) (p : portal) : portal :=
  {| signed_in := signed; remember_me := remember_me p;
     next_button := next_button p; credentials_ok := credentials_ok p;
     location := u |}.

(** A signed-in browser that asks for the login page is sent on to the
    dashboard; an anonymous one is sent to the login page whatever it asks
    for.  After Verify the site lands on the dashboard, or back on the login
    page when it rejects the credentials.  The Next button may never show. *)
Definition perform (c : call) (p : portal) : (exn + ()) * portal :=
  match c with
  | Goto u _ =>
      if signed_in p
      then (inr (), move (if String.eqb u pages.login.url
                          then pages.dashboard.url else u) true p)
      else (inr (), move pages.login.url false p)
  | WaitForSelector sel timeout =>
      if String.eqb sel pages.login.nextButton && negb (next_button p)
      then (inl (Err "TimeoutError" "Waiting for selector failed"), p)
      else (inr (), p)
  | WaitForNavigation _ =>
      if credentials_ok p
      then (inr (), move pages.dashboard.url true p)
      else (inr (), move pages.login.url false p)
  | _ => (inr (), p)
  end.

Definition on_login_form (p : portal) : bool :=
  negb (signed_in p) && String.eqb (location p) pages.login.url.

Definition query (sel : string) (p : portal) : (exn + bool) * portal :=
  if String.eqb sel pages.login.username then (inr (on_login_form p), p)
  else if String.eqb sel pages.login.rememberMe
       then (inr (on_login_form p && remember_me p), p)
       else (inr false, p).

#[global] Instance portal_puppeteer : Puppeteer portal := {|
  perform_call := perform;
  query_selector := query;
  browser_pages := λ p, (inr 2, p);
  page_url := location;
  elapse := λ _ p, p
|}.

(** A first run: no session, the full form, good credentials. *)
Definition fresh : portal :=
  {| signed_in := false; remember_me := true; next_button := true;
     credentials_ok := true; location := "about:blank" |}.

(** A later run: the profile directory still carries the session. *)
Definition returning : portal :=
  {| signed_in := true; remember_me := true; next_button := true;
     credentials_ok := true; location := "about:blank" |}.

(** The Next button never becomes visible. *)
Definition stuck : portal :=
  {| signed_in := false; remember_me := true; next_button := false;
     credentials_ok := true; location := "about:blank" |}.

(** The form is rendered without the 'remember me' label. *)
Definition plain : portal :=
  {| signed_in := false; remember_me := false; next_button := true;
     credentials_ok := true; location := "about:blank" |}.

(** The credentials are rejected: Verify leads back to the login page. *)
Definition rejected : portal :=
  {| signed_in := false; remember_me := true; next_button := true;
     credentials_ok := false; location := "about:blank" |}.

End Portal.


(** ** Sample profile directories *)

Module Disks.

(** A [Preferences] document as Chromium writes it, cut down to a few
    entries. *)
Definition chrome_fields : gmap string json :=
  list_to_map
    [ ("browser", JObj (list_to_map [("has_seen_welcome_page", JBool true)]));
      ("credentials_enable_service", JBool true);
      ("profile",
       JObj (list_to_map [("name", JStr "Person 1");
                          ("password_manager_enabled", JBool true);
                          ("exit_type", JStr "Crashed")]));
      ("session",
       JObj (list_to_map [("restore_on_startup", JNum 1);
                          ("startup_urls", JArr [JStr "https://activ.rfs.nsw.gov.au/webapp"])])) ].

Definition no_faults (dir : directory) : disk :=
  {| userData := dir; mkdir_error := None; read_error := None; write_error := None |}.

(** The profile of an earlier run. *)
Definition used : disk := no_faults (Present (Some (JsonText (JObj chrome_fields)))).

(** A [Preferences] file cut off in the middle. *)
Definition corrupt : disk := no_faults (Present (Some (Garbled "{ browser: { "))).

(** The very first run: no profile directory yet. *)
Definition first_run : disk := no_faults Missing.

End Disks.

(** ** More ways to read a run, a document and a disk *)

(** The values on which the assignments of [updatePreferences] go through:
    objects and arrays.  On [null] and on a bare boolean, number or string
    they throw. *)
Definition patchable (doc : json) : bool :=
  match doc with
  | JObj _ | JArr _ => true
  | JNull | JBool _ | JNum _ | JStr _ => false
  end.

Definition is_object (v : json) : bool :=
  match v with
  | JObj _ => true
  | _ => false
  end.

Definition is_launch (e : event) : bool :=
  match e with
  | Called (Launch _) => true
  | _ => false
  end.

Definition is_timer (e : event) : bool :=
  match e with
  | TimerSet _ => true
  | _ => false
  end.

(** Any navigation at all. *)
Definition is_goto (e : event) : bool :=
  match e with
  | Called (Goto _ _) => true
  | _ => false
  end.

(** An event that types text types the username into the username field or
    the password into the password field. *)
Definition types_credentials_only (USERNAME PASSWORD : string) (e : event) : Prop :=
  match e with
  | Called (TypeText sel text) =>
      (sel = pages.login.username ∧ text = USERNAME) ∨
      (sel = pages.login.password ∧ text = PASSWORD)
  | _ => True
  end.

(** The two events that change the disk. *)
Definition is_disk_change (e : event) : bool :=
  match e with
  | Mkdir _ | Wrote _ => true
  | _ => false
  end.

Definition is_write (e : event) : bool :=
  match e with
  | Wrote _ => true
  | _ => false
  end.

(** What [console.error] printed with an error attached. *)
Definition is_error_report (e : event) : bool :=
  match e with
  | LoggedError _ (Some _) => true
  | _ => false
  end.

(** What a whole run is measured by: its launches, its navigations to the
    login page and to the dashboard, its delays, its timers and its error
    reports. *)
Definition tally_of (evs : list event) : list nat :=
  [count is_launch evs; count is_login_attempt evs; count is_dashboard_attempt evs;
   count is_delay evs; count is_timer evs; count is_error_report evs].

(** What every event of a retry phase is: no launch, no timer, and typing
    only of the credentials into their fields. *)
Definition phase_event (USERNAME PASSWORD : string) (e : event) : Prop :=
  is_launch e = false ∧ is_timer e = false ∧
  types_credentials_only USERNAME PASSWORD e.

(** ** The earlier versions of the script

    The repository keeps two earlier versions of [login.js].  Neither has
    the retry loops. *)

(** The second version: one pass through the form, then the dashboard. *)
Module LoginV2.
Section Driver.
Context {W : Type} `{!Puppeteer W}.
Context (USERNAME PASSWORD : string).

(** [`${pages.login.username}, ${pages.login.password}`]: either field. *)
Definition loginForm : string :=
  pages.login.username +:+ ", " +:+ pages.login.password.

(** [loginToRFSActiv] of the second version.  Opening the browser and the
    form flow are, line for line, those of [login.js]. *)
Definition loginToRFSActiv : M W () :=
  try_catch
    (LoginJs.openBrowser;;
     (* Navigate to login page *)
     await (Goto pages.login.url networkidle2);;
     (* Check if login page is detected *)
     form ← page_query loginForm;
     (if form : bool then
        _log "Login form detected. Logging in...";;
        LoginJs.formFlow USERNAME PASSWORD;;
        _log "Login successful!"
      else
        _log "Already logged in. Skipping login process.");;
     (* Ensure navigation to dashboard *)
     _log "Navigating to dashboard...";;
     await (Goto pages.dashboard.url networkidle0);;
     _log "Dashboard loaded.";;
     (* Zoom in for better readability *)
     await (EvaluateZoom "1.4");;
     await (Goto pages.dashboard.url networkidle0);;
     (* Auto-refresh every 6 hours *)
     setInterval refreshTick (3600000 * 6))
    (λ error, console_error "Error during login:" error).

End Driver.
End LoginV2.

(** The simulated portal as the second version sees it: its selector list
    matches where the login form is on the page. *)
Module PortalV2.

Record portal := { site : Portal.portal }.

Definition perform (c : call) (p : portal) : (exn + ()) * portal :=
  let '(reply, s) := Portal.perform c (site p) in (reply, {| site := s |}).

Definition query (sel : string) (p : portal) : (exn + bool) * portal :=
  if String.eqb sel LoginV2.loginForm then (inr (Portal.on_login_form (site p)), p)
  else let '(reply, s) := Portal.query sel (site p) in (reply, {| site := s |}).

#[global] Instance portal_v2_puppeteer : Puppeteer portal := {|
  perform_call := perform;
  query_selector := query;
  browser_pages := λ p, (inr 2, p);
  page_url := λ p, Portal.location (site p);
  elapse := λ _ p, p
|}.

End PortalV2.

(** The first version.  Line 134 of its [loginToRFSActiv] binds the open
    tabs to a block-scoped constant named [pages], which hides the site
    table of the same name for the rest of the [try] block. *)
Module LoginV1.
Section Driver.
Context {W : Type} `{!Puppeteer W}.

(** [pages.login.url] where [pages] is the array of open tabs: the array has
    no property [login], and reading [url] of [undefined] throws. *)
Definition pages_login_url : M W string :=
  throw (Err "TypeError" "Cannot read properties of undefined (reading 'url')").

(** [loginToRFSActiv] of the first version, down to the navigation to the
    login page (lines 95-140).  [rest] stands for lines 142-218, which
    differ from the later versions in calls this development has no events
    for; what is proved of this function holds for every [rest]. *)
Definition loginToRFSActiv (rest : M W ()) : M W () :=
  try_catch
    (LoginJs.openBrowser;;
     (* Navigate to the login page *)
     login_url ← pages_login_url;
     await (Goto login_url networkidle2);;
     rest)
    (λ error, console_error "Error during login:" error).

End Driver.
End LoginV1.

(** ** The request interceptor of [mannuallyUpdatePasswordManager] *)

Module Interceptor.

(** An intercepted request as the handler sees it: each of its two calls
    resolves or rejects. *)
Class Request (R : Type) := {
  request_url : R → string;                     (* request.url() *)
  request_abort : R → (exn + ()) * R;           (* request.abort() *)
  request_continue : R → (exn + ()) * R         (* request.continue() *)
}.

(** What the handler does to the request and to the console. *)
Inductive action :=
  | Aborted                                  (* request.abort() was called *)
  | Continued                                (* request.continue() was called *)
  | Said (msg : string)                      (* console.log(msg) *)
  | Complained (msg : string) (error : exn). (* console.error(msg, error) *)

Definition is_abort (a : action) : bool :=
  match a with Aborted => true | _ => false end.

Definition is_continue (a : action) : bool :=
  match a with Continued => true | _ => false end.

Definition is_complaint (a : action) : bool :=
  match a with Complained _ _ => true | _ => false end.

(** How many actions satisfy [p]. *)
Fixpoint tally (p : action → bool) (acts : list action) : nat :=
  match acts with
  | [] => 0
  | a :: acts' => (if p a then 1 else 0) + tally p acts'
  end.

(** The handler registered with [page.on('request', ...)]:
<<
    try {
        if (request.url().includes('chrome://password-manager')) {
            _log('Blocking password manager request');
            await request.abort();
        } else {
            await request.continue();
        }
    } catch (error) {
        console.error("Request interception error:", error);
        await request.continue();
    }
>>
    The value is how the handler's promise settles, the request it leaves
    and what it did. *)
Definition onRequest {R : Type} `{!Request R} (r : R)
    : completion () * R * list action :=
  let '(tried, r1, acts) :=
    if includes (request_url r) "chrome://password-manager" then
      let '(reply, r1) := request_abort r in
      (of_reply reply, r1, [Said "Blocking password manager request"; Aborted])
    else
      let '(reply, r1) := request_continue r in
      (of_reply reply, r1, [Continued]) in
  match tried with
  | Normal _ => (Normal (), r1, acts)
  | Throw error =>
      let '(reply, r2) := request_continue r1 in
      (of_reply reply, r2,
       acts ++ [Complained "Request interception error:" error; Continued])
  end.

End Interceptor.

(** * Properties *)

(** ** [includes] is substring containment *)

Lemma startsWith_app t b : startsWith (t +:+ b) t = true.
Proof.
  induction t as [|c t IH]; [done|]. simpl.
  rewrite Ascii.eqb_refl. by rewrite IH.
Qed.

Lemma startsWith_spec s t : startsWith s t = true ↔ ∃ b, s = t +:+ b.
Proof.
  split.
  - revert s. induction t as [|c t IH]; intros s H.
    + by exists s.
    + destruct s as [|d s]; [done|]. simpl in H.
      apply andb_prop in H as [Hc Ht].
      apply Ascii.eqb_eq in Hc as ->.
      destruct (IH _ Ht) as [b ->]. by exists b.
  - intros [b ->]. apply startsWith_app.
Qed.

Lemma includes_startsWith s t : startsWith s t = true → includes s t = true.
Proof. intros H. destruct s; simpl; by rewrite H. Qed.

Lemma includes_spec s t : includes s t = true ↔ ∃ a b, s = a +:+ t +:+ b.
Proof.
  split.
  - induction s as [|c s IH]; simpl; intros H.
    + rewrite orb_false_r in H. apply startsWith_spec in H as [b ->].
      by exists "", b.
    + apply orb_prop in H as [H|H].
      * apply startsWith_spec in H as [b Hb]. exists "", b. by rewrite Hb.
      * destruct (IH H) as (a & b & ->). by exists (String c a), b.
  - intros (a & b & ->). induction a as [|c a IH].
    + change ("" +:+ t +:+ b) with (t +:+ b).
      apply includes_startsWith, startsWith_app.
    + change (String c a +:+ t +:+ b) with (String c (a +:+ t +:+ b)).
      simpl. rewrite IH. apply orb_true_r.
Qed.

(** Every URL that contains the dashboard URL contains the application base. *)
Lemma includes_dashboard_webapp s :
  includes s pages.dashboard.url = true → includes s pages.webapp.url = true.
Proof.
  rewrite !includes_spec. intros (a & b & ->).
  by exists a, ("/dashboard" +:+ b).
Qed.

(** ** Counting events *)

Lemma count_app p evs1 evs2 : count p (evs1 ++ evs2) = count p evs1 + count p evs2.
Proof. induction evs1 as [|e evs1 IH]; simpl; [done|]. rewrite IH. lia. Qed.

Lemma count_none p evs : count p evs = 0 ↔ Forall (λ e, p e = false) evs.
Proof.
  induction evs as [|e evs IH]; simpl.
  - split; [constructor | done].
  - rewrite Forall_cons. destruct (p e); simpl.
    + split; [lia | by intros [? _]].
    + rewrite IH. split; [done | by intros [_ ?]].
Qed.

(** ** Running the script monad *)

Section Runs.
Context {W : Type} `{!Puppeteer W}.

Lemma bind_run {A B} (m : M W A) (k : A → M W B) w :
  (m ≫= k) w =
  match m w with
  | (Normal a, w1, evs1) => let '(r, w2, evs2) := k a w1 in (r, w2, evs1 ++ evs2)
  | (Throw e, w1, evs1) => (Throw e, w1, evs1)
  end.
Proof. reflexivity. Qed.

Lemma bind_assoc {A B C} (m : M W A) (k : A → M W B) (h : B → M W C) w :
  ((m ≫= k) ≫= h) w = (m ≫= λ a, k a ≫= h) w.
Proof.
  rewrite !bind_run. destruct (m w) as [[[a|e] w1] evs1]; [|done].
  rewrite bind_run. destruct (k a w1) as [[[b|e] w2] evs2]; [|done].
  destruct (h b w2) as [[r w3] evs3]. by rewrite app_assoc.
Qed.

(** ** The retry loop *)

Section Retry.
Context (max : nat) (block : M W signal) (on_error : nat → M W ()).

(** The [catch] clauses of the script only log. *)
Hypothesis on_error_logs : ∀ k w, ∃ evs, on_error k w = (Normal (), w, evs).

Lemma attempt_normal k w :
  ∃ s w' evs, attempt block on_error k w = (Normal s, w', evs).
Proof.
  unfold attempt, try_catch. destruct (block w) as [[[s|e] w1] evs1]; [by eauto|].
  rewrite bind_run. destruct (on_error_logs k w1) as [evs ->]. simpl. by eauto.
Qed.

(** The events of a run of the loop started with the counter at [a] and left
    with it at [n]: failed attempts, each followed by the delay, and then,
    unless the counter has reached [max], the attempt that broke out. *)
Inductive loop_events : nat → nat → list event → Prop :=
  | loop_exhausted : loop_events max max []
  | loop_break a w w' evs :
      a < max →
      attempt block on_error a w = (Normal Break, w', evs) →
      loop_events a a evs
  | loop_retry a n w w' evs rest :
      a < max →
      attempt block on_error a w = (Normal Fallthrough, w', evs) →
      loop_events (S a) n rest →
      loop_events a n (evs ++ Slept retryDelay :: rest).

Lemma loop_events_le a n evs : loop_events a n evs → a ≤ n ≤ max.
Proof. induction 1; lia. Qed.

(** The loop terminates within the fuel the phases give it, and never
    throws. *)
Lemma retry_while_run fuel a w :
  a ≤ max → max - a ≤ fuel →
  ∃ n w' evs,
    retry_while fuel max block on_error a w = (Normal n, w', evs) ∧
    a ≤ n ≤ max ∧ loop_events a n evs.
Proof.
  revert a w. induction fuel as [|fuel IH]; intros a w Ha Hfuel.
  - assert (a = max) as -> by lia. exists max, w, []. simpl.
    split; [done|]. split; [lia|]. constructor.
  - simpl. destruct (a <? max) eqn:Hlt.
    + apply Nat.ltb_lt in Hlt.
      destruct (attempt_normal a w) as (s & w1 & evs1 & Hatt).
      rewrite bind_run, Hatt. destruct s.
      * exists a, w1, (evs1 ++ []). split; [done|]. split; [lia|].
        rewrite app_nil_r. by eapply loop_break.
      * destruct (IH (S a) (elapse retryDelay w1)) as (n & w2 & evs2 & Hrun & Hn & Hev);
          [lia..|].
        rewrite bind_run. unfold sleep at 1. rewrite Hrun.
        exists n, w2, (evs1 ++ Slept retryDelay :: evs2).
        split; [done|]. split; [lia|]. by eapply loop_retry.
    + apply Nat.ltb_ge in Hlt. assert (a = max) as -> by lia.
      exists max, w, []. split; [done|]. split; [lia|]. constructor.
Qed.

(** More fuel than [max] changes nothing. *)
Lemma retry_while_fuel fuel a w :
  a ≤ max → max - a ≤ fuel →
  retry_while fuel max block on_error a w =
  retry_while (max - a) max block on_error a w.
Proof.
  revert a w. induction fuel as [|fuel IH]; intros a w Ha Hfuel.
  - by replace (max - a) with 0 by lia.
  - destruct (max - a) as [|m] eqn:Hm.
    + simpl. by replace (a <? max) with false by (symmetry; apply Nat.ltb_ge; lia).
    + simpl. destruct (a <? max); [|done].
      rewrite !bind_run. destruct (attempt block on_error a w) as [[[[]|] ?] ?]; try done.
      rewrite !bind_run. unfold sleep.
      rewrite IH by lia. by replace (max - S a) with m by lia.
Qed.

(** When the next attempts all fail, the loop runs until the counter
    reaches [max]. *)
Lemma retry_while_all_fail fuel a w :
  a ≤ max → max - a ≤ fuel →
  all_fail (max - a) block on_error a w = true →
  ∃ w' evs, retry_while fuel max block on_error a w = (Normal max, w', evs).
Proof.
  revert a w. induction fuel as [|fuel IH]; intros a w Ha Hfuel Hfail.
  - assert (a = max) as -> by lia. simpl. by eauto.
  - simpl. destruct (a <? max) eqn:Hlt.
    + apply Nat.ltb_lt in Hlt.
      replace (max - a) with (S (max - S a)) in Hfail by lia. simpl in Hfail.
      rewrite bind_run.
      destruct (attempt block on_error a w) as [[[[]|] w1] evs1]; try done.
      destruct (IH (S a) (elapse retryDelay w1)) as (w2 & evs2 & Hrun); [lia..|done|].
      rewrite bind_run. unfold sleep at 1. rewrite Hrun. by eauto.
    + apply Nat.ltb_ge in Hlt. assert (a = max) as -> by lia. by eauto.
Qed.

(** Counting in a run: when every attempt has [c] events that satisfy [p],
    each failed attempt contributes [c] and what its delay contributes, and
    the attempt that broke out contributes [c]. *)
Lemma loop_events_count p c a n evs :
  (∀ k w, count p (attempt block on_error k w).2 = c) →
  loop_events a n evs →
  count p evs =
    (n - a) * (c + count p [Slept retryDelay]) + (if n <? max then c else 0).
Proof.
  intros Hc. induction 1 as [|a w w' evs Ha Hatt|a n w w' evs rest Ha Hatt Hrest IH].
  - rewrite Nat.ltb_irrefl. simpl. lia.
  - specialize (Hc a w). rewrite Hatt in Hc. simpl in Hc.
    replace (a <? max) with true by (symmetry; by apply Nat.ltb_lt). lia.
  - specialize (Hc a w). rewrite Hatt in Hc. simpl in Hc.
    rewrite count_app. change (Slept retryDelay :: rest) with ([Slept retryDelay] ++ rest).
    rewrite count_app, IH, Hc.
    pose proof (loop_events_le _ _ _ Hrest).
    replace (n - a) with (S (n - S a)) by lia. lia.
Qed.

(** A run that leaves the loop before the bound ends with the last event of
    the attempt that broke out. *)
Lemma loop_events_last e0 a n evs :
  (∀ k w w' evs', attempt block on_error k w = (Normal Break, w', evs') →
     last evs' = Some e0) →
  loop_events a n evs → n < max → last evs = Some e0.
Proof.
  intros Hlast. induction 1 as [|a w w' evs Ha Hatt|a n w w' evs rest Ha Hatt Hrest IH];
    intros Hn.
  - lia.
  - by eapply Hlast.
  - specialize (IH Hn). rewrite last_app. simpl.
    destruct rest as [|e rest]; [done|]. simpl in *. by rewrite IH.
Qed.

(** Every event of a run is an event of one of its attempts, or the delay. *)
Lemma loop_events_Forall (P : event → Prop) a n evs :
  (∀ k w, Forall P (attempt block on_error k w).2) →
  P (Slept retryDelay) →
  loop_events a n evs → Forall P evs.
Proof.
  intros Hatt Hdelay.
  induction 1 as [|a w w' evs Ha Hrun|a n w w' evs rest Ha Hrun Hrest IH].
  - constructor.
  - specialize (Hatt a w). by rewrite Hrun in Hatt.
  - specialize (Hatt a w). rewrite Hrun in Hatt.
    apply Forall_app. split; [done|]. by constructor.
Qed.

End Retry.
End Runs.

(** ** Stepping through a block of the script

    [exec] unfolds the monad and splits on the answer of every call and on
    every test of the script, so that each path through the block is left
    with the events it issues. *)

Ltac exec_step :=
  match goal with
  | |- context [perform_call ?c ?w] =>
      destruct (perform_call c w) as [[?|[]] ?] eqn:?
  | |- context [query_selector ?c ?w] =>
      destruct (query_selector c w) as [[?|[|]] ?] eqn:?
  | |- context [browser_pages ?w] =>
      destruct (browser_pages w) as [[?|?] ?] eqn:?
  | |- context [if ?b then _ else _] => destruct b eqn:?
  end.

Ltac exec_simpl :=
  cbn -[includes String.append pretty retry_while N.mul N.div].

Ltac exec :=
  unfold mbind, mret, M_bind, M_ret, await, page_query, pages_length, _log, url,
    sleep, setInterval, console_error, throw, try_catch, of_reply;
  exec_simpl; repeat (exec_step; exec_simpl).

(** ** The attempts of [login.js] *)

Section LoginJsAttempts.
Context {W : Type} `{!Puppeteer W} (USERNAME PASSWORD : string).

#[local] Abbreviation loginAttempt :=
  (attempt (LoginJs.loginTry USERNAME PASSWORD) LoginJs.loginCatch).
#[local] Abbreviation navigationAttempt :=
  (attempt LoginJs.navigationTry LoginJs.navigationCatch).

Lemma loginCatch_logs k (w : W) : ∃ evs, LoginJs.loginCatch k w = (Normal (), w, evs).
Proof. by eexists. Qed.

Lemma navigationCatch_logs k (w : W) :
  ∃ evs, LoginJs.navigationCatch k w = (Normal (), w, evs).
Proof. by eexists. Qed.

Ltac unfold_login :=
  unfold attempt, LoginJs.loginTry, LoginJs.formFlow, LoginJs.enterUsername,
    LoginJs.clickRememberMe, LoginJs.submitForm, LoginJs.checkLanding,
    LoginJs.loginCatch, LoginJs.navigationTry, LoginJs.navigationCatch.

(** A login attempt navigates to the login page exactly once, never to the
    dashboard, and never sleeps. *)
Lemma loginAttempt_counts k (w : W) :
  count is_login_attempt (loginAttempt k w).2 = 1 ∧
  count is_dashboard_attempt (loginAttempt k w).2 = 0 ∧
  count is_delay (loginAttempt k w).2 = 0.
Proof. unfold_login. exec; done. Qed.

Lemma navigationAttempt_counts k (w : W) :
  count is_dashboard_attempt (navigationAttempt k w).2 = 1 ∧
  count is_login_attempt (navigationAttempt k w).2 = 0 ∧
  count is_delay (navigationAttempt k w).2 = 0.
Proof. unfold_login. exec; done. Qed.

(** The only way out of the login loop is past the success line. *)
Lemma loginAttempt_break_last k (w w' : W) evs :
  loginAttempt k w = (Normal Break, w', evs) →
  last evs = Some (Logged "Login successful!").
Proof. unfold_login. exec; by intros [= <- <-]. Qed.

Lemma navigationAttempt_break_last k (w w' : W) evs :
  navigationAttempt k w = (Normal Break, w', evs) →
  last evs = Some (Logged "Dashboard loaded.").
Proof. unfold_login. exec; by intros [= <- <-]. Qed.

End LoginJsAttempts.

(** ** The shape of a phase *)

Section Phases.
Context {W : Type} `{!Puppeteer W}.

(** What a retry loop run by a phase does, for a loop whose attempts each
    issue one event that satisfies [p] and no delay, and break only after
    the event [e0]: [n] failed attempts, each followed by one delay, and one
    more attempt, followed by nothing, when the loop is left early. *)
Lemma retry_while_shape (p : event → bool) (e0 : event) (N : nat)
    (block : M W signal) (on_error : nat → M W ()) (w : W) :
  (∀ k w, ∃ evs, on_error k w = (Normal (), w, evs)) →
  (∀ k w, count p (attempt block on_error k w).2 = 1) →
  (∀ k w, count is_delay (attempt block on_error k w).2 = 0) →
  (∀ k w w' evs, attempt block on_error k w = (Normal Break, w', evs) →
     last evs = Some e0) →
  p (Slept retryDelay) = false →
  ∃ n w' evs,
    retry_while N N block on_error 0 w = (Normal n, w', evs) ∧
    n ≤ N ∧
    count is_delay evs = n ∧
    count p evs = n + (if n <? N then 1 else 0) ∧
    Forall fixed_delay evs ∧
    (n < N → last evs = Some e0).
Proof.
  intros Hcatch Hp Hdelay Hlast Hsleep.
  destruct (retry_while_run N block on_error Hcatch N 0 w) as (n & w' & evs & Hrun & Hn & Hev);
    [lia..|].
  exists n, w', evs. split; [done|]. split; [lia|].
  split; [|split; [|split]].
  - rewrite (loop_events_count N block on_error is_delay 0 0 n evs Hdelay Hev).
    simpl. destruct (n <? N); lia.
  - rewrite (loop_events_count N block on_error p 1 0 n evs Hp Hev).
    simpl. rewrite Hsleep. destruct (n <? N); lia.
  - apply (loop_events_Forall N block on_error fixed_delay 0 n evs); [|done|done].
    intros k w0. specialize (Hdelay k w0). apply count_none in Hdelay.
    eapply Forall_impl; [exact Hdelay|]. intros e He Hd. congruence.
  - by apply (loop_events_last N block on_error e0 0 n evs).
Qed.

End Phases.

(** ** The two phases of [login.js] *)

Section LoginJsPhases.
Context {W : Type} `{!Puppeteer W} (USERNAME PASSWORD : string).

(** A run of the login phase: either every attempt failed and the phase
    throws after [N] attempts and [N] delays, or the last attempt succeeded
    and was followed by no delay. *)
Lemma loginPhase_shape N (w : W) :
  ∃ r w' evs,
    LoginJs.loginPhase USERNAME PASSWORD N w = (r, w', evs) ∧
    Forall fixed_delay evs ∧
    ((r = Throw (Error "Max login attempts reached. Unable to login.") ∧
      count is_login_attempt evs = N ∧ count is_delay evs = N)
     ∨
     (r = Normal () ∧
      count is_login_attempt evs = count is_delay evs + 1 ∧
      count is_login_attempt evs ≤ N ∧
      last evs = Some (Logged "Login successful!"))).
Proof.
  destruct (retry_while_shape is_login_attempt (Logged "Login successful!") N
              (LoginJs.loginTry USERNAME PASSWORD) LoginJs.loginCatch w)
    as (n & w' & evs & Hrun & Hn & Hd & Ha & Hf & Hl).
  - apply loginCatch_logs.
  - apply loginAttempt_counts.
  - apply loginAttempt_counts.
  - apply loginAttempt_break_last.
  - done.
  - unfold LoginJs.loginPhase. rewrite bind_run, Hrun.
    destruct (n =? N) eqn:Hmax.
    + apply Nat.eqb_eq in Hmax as ->. rewrite Nat.ltb_irrefl in Ha.
      eexists _, _, _. split; [reflexivity|]. rewrite app_nil_r.
      split; [done|]. left. split; [done|]. split; lia.
    + apply Nat.eqb_neq in Hmax. assert (n < N) as Hlt by lia.
      replace (n <? N) with true in Ha by (symmetry; by apply Nat.ltb_lt).
      eexists _, _, _. split; [reflexivity|]. rewrite app_nil_r.
      split; [done|]. right. split; [done|]. split; [lia|]. split; [lia|]. by apply Hl.
Qed.

Lemma navigationPhase_shape N (w : W) :
  ∃ r w' evs,
    LoginJs.navigationPhase N w = (r, w', evs) ∧
    Forall fixed_delay evs ∧
    ((r = Throw (Error "Max navigation attempts reached. Unable to navigate to dashboard.") ∧
      count is_dashboard_attempt evs = N ∧ count is_delay evs = N)
     ∨
     (r = Normal () ∧
      count is_dashboard_attempt evs = count is_delay evs + 1 ∧
      count is_dashboard_attempt evs ≤ N ∧
      last evs = Some (Logged "Dashboard loaded."))).
Proof.
  destruct (retry_while_shape is_dashboard_attempt (Logged "Dashboard loaded.") N
              LoginJs.navigationTry LoginJs.navigationCatch w)
    as (n & w' & evs & Hrun & Hn & Hd & Ha & Hf & Hl).
  - apply navigationCatch_logs.
  - apply navigationAttempt_counts.
  - apply navigationAttempt_counts.
  - apply navigationAttempt_break_last.
  - done.
  - unfold LoginJs.navigationPhase. rewrite bind_run, Hrun.
    destruct (n =? N) eqn:Hmax.
    + apply Nat.eqb_eq in Hmax as ->. rewrite Nat.ltb_irrefl in Ha.
      eexists _, _, _. split; [reflexivity|]. rewrite app_nil_r.
      split; [done|]. left. split; [done|]. split; lia.
    + apply Nat.eqb_neq in Hmax. assert (n < N) as Hlt by lia.
      replace (n <? N) with true in Ha by (symmetry; by apply Nat.ltb_lt).
      eexists _, _, _. split; [reflexivity|]. rewrite app_nil_r.
      split; [done|]. right. split; [done|]. split; [lia|]. split; [lia|]. by apply Hl.
Qed.

(** When every attempt fails, the phase ends in its exhaustion error. *)
Lemma loginPhase_all_fail N (w : W) :
  all_fail N (LoginJs.loginTry USERNAME PASSWORD) LoginJs.loginCatch 0 w = true →
  ∃ w' evs,
    LoginJs.loginPhase USERNAME PASSWORD N w =
      (Throw (Error "Max login attempts reached. Unable to login."), w', evs) ∧
    count is_login_attempt evs = N ∧ count is_delay evs = N.
Proof.
  intros Hfail.
  destruct (retry_while_all_fail N (LoginJs.loginTry USERNAME PASSWORD)
              LoginJs.loginCatch N 0 w) as (w1 & evs1 & Hrun); [lia..| |].
  { by rewrite Nat.sub_0_r. }
  destruct (loginPhase_shape N w) as (r & w' & evs & Hphase & _ & Hshape).
  assert (r = Throw (Error "Max login attempts reached. Unable to login.")) as Hr.
  { unfold LoginJs.loginPhase in Hphase. rewrite bind_run, Hrun, Nat.eqb_refl in Hphase.
    by injection Hphase as <- _ _. }
  destruct Hshape as [(_ & Hc & Hd)|(Hn & _)]; [|congruence].
  exists w', evs. by rewrite Hphase, Hr.
Qed.

Lemma navigationPhase_all_fail N (w : W) :
  all_fail N LoginJs.navigationTry LoginJs.navigationCatch 0 w = true →
  ∃ w' evs,
    LoginJs.navigationPhase N w =
      (Throw (Error "Max navigation attempts reached. Unable to navigate to dashboard."),
       w', evs) ∧
    count is_dashboard_attempt evs = N ∧ count is_delay evs = N.
Proof.
  intros Hfail.
  destruct (retry_while_all_fail N LoginJs.navigationTry
              LoginJs.navigationCatch N 0 w) as (w1 & evs1 & Hrun); [lia..| |].
  { by rewrite Nat.sub_0_r. }
  destruct (navigationPhase_shape N w) as (r & w' & evs & Hphase & _ & Hshape).
  assert (r = Throw (Error "Max navigation attempts reached. Unable to navigate to dashboard."))
    as Hr.
  { unfold LoginJs.navigationPhase in Hphase.
    rewrite bind_run, Hrun, Nat.eqb_refl in Hphase. by injection Hphase as <- _ _. }
  destruct Hshape as [(_ & Hc & Hd)|(Hn & _)]; [|congruence].
  exists w', evs. by rewrite Hphase, Hr.
Qed.

(** The login phase issues no navigation to the dashboard. *)
Lemma loginPhase_no_dashboard N (w : W) :
  count is_dashboard_attempt (LoginJs.loginPhase USERNAME PASSWORD N w).2 = 0.
Proof.
  destruct (retry_while_run N (LoginJs.loginTry USERNAME PASSWORD) LoginJs.loginCatch
              loginCatch_logs N 0 w) as (n & w' & evs & Hrun & Hn & Hev); [lia..|].
  unfold LoginJs.loginPhase. rewrite bind_run, Hrun.
  assert (count is_dashboard_attempt evs = 0) as Hevs.
  { rewrite (loop_events_count N _ _ is_dashboard_attempt 0 0 n evs
               (λ k w0, proj1 (proj2 (loginAttempt_counts USERNAME PASSWORD k w0))) Hev).
    simpl. destruct (n <? N); lia. }
  destruct (n =? N); simpl; by rewrite app_nil_r.
Qed.

Lemma openBrowser_no_navigation (w w' : W) r evs :
  LoginJs.openBrowser w = (r, w', evs) →
  count is_dashboard_attempt evs = 0 ∧ count is_login_attempt evs = 0.
Proof. unfold LoginJs.openBrowser. exec; by intros [= <- <- <-]. Qed.

End LoginJsPhases.

(** ** An absent login form *)

Section AbsentForm.
Context {W : Type} `{!Puppeteer W} (USERNAME PASSWORD : string).

(** [login.js] counts an attempt without a login form as failed, whatever
    the URL the browser is at. *)
Lemma LoginJs_absent_form_fails (w w1 w2 : W) :
  perform_call (Goto pages.login.url networkidle2) w = (inr (), w1) →
  query_selector pages.login.username w1 = (inr false, w2) →
  LoginJs.loginTry USERNAME PASSWORD w =
    (Normal Fallthrough, w2,
     [Called (Goto pages.login.url networkidle2); Queried pages.login.username;
      Logged "Login form not detected. Retrying..."]).
Proof.
  intros Hgoto Hquery. unfold LoginJs.loginTry.
  unfold mbind, mret, M_bind, M_ret, await, page_query, _log, of_reply.
  by rewrite Hgoto, Hquery.
Qed.

(** The TypeScript port checks the URL in that case: a browser that is
    already signed in leaves the login phase in its first attempt, with no
    interaction with the form and no delay. *)
Lemma LoginTs_session_detected N (w w1 w2 : W) :
  perform_call (Goto pages.login.url networkidle2) w = (inr (), w1) →
  query_selector pages.login.username w1 = (inr false, w2) →
  includes (page_url w2) pages.dashboard.url
    || includes (page_url w2) pages.webapp.url = true →
  LoginTs.loginPhase USERNAME PASSWORD (S N) w =
    (Normal (), w2,
     [Called (Goto pages.login.url networkidle2); Queried pages.login.username;
      Logged "Login successful!"]).
Proof.
  intros Hgoto Hquery Hurl.
  unfold LoginTs.loginPhase. simpl retry_while.
  unfold attempt, LoginTs.loginTry, LoginTs.isloggedInPage.
  unfold mbind, mret, M_bind, M_ret, await, page_query, _log, url, try_catch, of_reply.
  rewrite Hgoto, Hquery. cbn -[includes]. by rewrite Hurl.
Qed.

End AbsentForm.

(** C1 (the defect in [login.js]).  A browser whose profile still carries the
    session is sent from the login URL on to the dashboard: the username
    field is absent and the URL matches the dashboard.  [login.js] does not
    look at the URL on that path: all five attempts fail, each followed by
    the delay, and the phase ends in the exhaustion error without ever
    navigating to the dashboard. *)
Theorem C1_login_js_session_not_detected :
  let w1 := Portal.move pages.dashboard.url true Portal.returning in
  perform_call (Goto pages.login.url networkidle2) Portal.returning = (inr (), w1) ∧
  query_selector pages.login.username w1 = (inr false, w1) ∧
  includes (page_url w1) pages.dashboard.url = true ∧
  (LoginJs.loginPhase "station1" "pw1" 5 Portal.returning).1.1 =
    Throw (Error "Max login attempts reached. Unable to login.") ∧
  count is_login_attempt (LoginJs.loginPhase "station1" "pw1" 5 Portal.returning).2 = 5 ∧
  count is_delay (LoginJs.loginPhase "station1" "pw1" 5 Portal.returning).2 = 5 ∧
  count is_dashboard_attempt
    (LoginJs.loginToRFSActiv "station1" "pw1" 5 5 Portal.returning).2 = 0.
Proof. vm_compute. by repeat split. Qed.

(** On the same input the TypeScript port does what the claim says. *)
Lemma C1_ts_port_on_the_same_input :
  LoginTs.loginPhase "station1" "pw1" 5 Portal.returning =
    (Normal (), Portal.move pages.dashboard.url true Portal.returning,
     [Called (Goto pages.login.url networkidle2); Queried pages.login.username;
      Logged "Login successful!"]).
Proof.
  by apply (LoginTs_session_detected _ _ 4 Portal.returning
              (Portal.move pages.dashboard.url true Portal.returning)).
Qed.

(** C2.  For every bound [N], when every attempt of a phase fails the phase
    makes exactly [N] attempts and then throws its exhaustion error; the
    error of the login phase ends the [try] block of [loginToRFSActiv], whose
    [catch] logs it: no navigation to the dashboard is ever issued. *)
Theorem C2_exhaustion_after_N_attempts {W : Type} `{!Puppeteer W}
    (USERNAME PASSWORD : string) (N : nat) (w : W) :
  (all_fail N (LoginJs.loginTry USERNAME PASSWORD) LoginJs.loginCatch 0 w = true →
     ∃ w' evs,
       LoginJs.loginPhase USERNAME PASSWORD N w =
         (Throw (Error "Max login attempts reached. Unable to login."), w', evs) ∧
       count is_login_attempt evs = N)
  ∧
  (all_fail N LoginJs.navigationTry LoginJs.navigationCatch 0 w = true →
     ∃ w' evs,
       LoginJs.navigationPhase N w =
         (Throw (Error "Max navigation attempts reached. Unable to navigate to dashboard."),
          w', evs) ∧
       count is_dashboard_attempt evs = N)
  ∧
  (∀ maxNavigationAttempts w0 evs0,
     LoginJs.openBrowser w0 = (Normal (), w, evs0) →
     all_fail N (LoginJs.loginTry USERNAME PASSWORD) LoginJs.loginCatch 0 w = true →
     ∃ w' evs,
       LoginJs.loginToRFSActiv USERNAME PASSWORD N maxNavigationAttempts w0 =
         (Normal (), w', evs) ∧
       count is_login_attempt evs = N ∧
       count is_dashboard_attempt evs = 0 ∧
       last evs = Some (LoggedError "Error during login:"
                          (Some (Error "Max login attempts reached. Unable to login.")))).
Proof.
  split; [|split].
  - intros Hfail.
    destruct (loginPhase_all_fail USERNAME PASSWORD N w Hfail) as (w' & evs & Hrun & Hc & _).
    by exists w', evs.
  - intros Hfail.
    destruct (navigationPhase_all_fail N w Hfail) as (w' & evs & Hrun & Hc & _).
    by exists w', evs.
  - intros M0 w0 evs0 Hopen Hfail.
    destruct (loginPhase_all_fail USERNAME PASSWORD N w Hfail) as (w' & evs & Hrun & Hc & _).
    pose proof (loginPhase_no_dashboard USERNAME PASSWORD N w) as Hnone.
    rewrite Hrun in Hnone. simpl in Hnone.
    destruct (openBrowser_no_navigation w0 w _ evs0 Hopen) as [Hd0 Hl0].
    unfold LoginJs.loginToRFSActiv, try_catch.
    rewrite bind_run, Hopen, bind_run, Hrun. simpl.
    eexists _, _. split; [reflexivity|].
    rewrite !count_app, Hd0, Hl0, Hc, Hnone. simpl.
    split; [lia|]. split; [lia|]. by rewrite last_snoc.
Qed.

(** C2 at a bound of 3, on the portal whose Next button never shows. *)
Lemma C2_exhaustion_witness :
  (all_fail 3 (LoginJs.loginTry "station1" "pw1") LoginJs.loginCatch 0 Portal.stuck = true ∧
   ∃ w' evs,
     LoginJs.loginPhase "station1" "pw1" 3 Portal.stuck =
       (Throw (Error "Max login attempts reached. Unable to login."), w', evs) ∧
     count is_login_attempt evs = 3)
  ∧
  (all_fail 3 LoginJs.navigationTry LoginJs.navigationCatch 0 Portal.stuck = true ∧
   ∃ w' evs,
     LoginJs.navigationPhase 3 Portal.stuck =
       (Throw (Error "Max navigation attempts reached. Unable to navigate to dashboard."),
        w', evs) ∧
     count is_dashboard_attempt evs = 3)
  ∧
  (LoginJs.openBrowser Portal.stuck = (Normal (), Portal.stuck, (LoginJs.openBrowser Portal.stuck).2) ∧
   ∃ w' evs,
     LoginJs.loginToRFSActiv "station1" "pw1" 3 5 Portal.stuck = (Normal (), w', evs) ∧
     count is_login_attempt evs = 3 ∧
     count is_dashboard_attempt evs = 0 ∧
     last evs = Some (LoggedError "Error during login:"
                        (Some (Error "Max login attempts reached. Unable to login.")))).
Proof.
  destruct (C2_exhaustion_after_N_attempts "station1" "pw1" 3 Portal.stuck)
    as (Hlogin & Hnavigation & Hdriver).
  split; [|split].
  - split; [by vm_compute | apply Hlogin; by vm_compute].
  - split; [by vm_compute | apply Hnavigation; by vm_compute].
  - split; [by vm_compute|].
    apply (Hdriver 5 Portal.stuck (LoginJs.openBrowser Portal.stuck).2); by vm_compute.
Defined.

(** C3, as the code has it.  Every run of a phase is a number of failed
    attempts, each followed by exactly one wait of [retryDelay], and then
    either the exhaustion error after [N] attempts and [N] waits, or one
    successful attempt after which nothing is waited for.  In particular a
    phase whose [N] attempts all fail has waited [N] times when it throws. *)
Theorem C3_one_delay_after_each_failed_attempt {W : Type} `{!Puppeteer W}
    (USERNAME PASSWORD : string) (N : nat) (w : W) :
  (∃ r w' evs,
     LoginJs.loginPhase USERNAME PASSWORD N w = (r, w', evs) ∧
     Forall fixed_delay evs ∧
     ((r = Throw (Error "Max login attempts reached. Unable to login.") ∧
       count is_login_attempt evs = N ∧ count is_delay evs = N)
      ∨
      (r = Normal () ∧
       count is_login_attempt evs = count is_delay evs + 1 ∧
       count is_login_attempt evs ≤ N ∧
       last evs = Some (Logged "Login successful!"))))
  ∧
  (∃ r w' evs,
     LoginJs.navigationPhase N w = (r, w', evs) ∧
     Forall fixed_delay evs ∧
     ((r = Throw (Error "Max navigation attempts reached. Unable to navigate to dashboard.") ∧
       count is_dashboard_attempt evs = N ∧ count is_delay evs = N)
      ∨
      (r = Normal () ∧
       count is_dashboard_attempt evs = count is_delay evs + 1 ∧
       count is_dashboard_attempt evs ≤ N ∧
       last evs = Some (Logged "Dashboard loaded."))))
  ∧
  (all_fail N (LoginJs.loginTry USERNAME PASSWORD) LoginJs.loginCatch 0 w = true →
     (LoginJs.loginPhase USERNAME PASSWORD N w).1.1 =
       Throw (Error "Max login attempts reached. Unable to login.") ∧
     count is_delay (LoginJs.loginPhase USERNAME PASSWORD N w).2 = N)
  ∧
  (all_fail N LoginJs.navigationTry LoginJs.navigationCatch 0 w = true →
     (LoginJs.navigationPhase N w).1.1 =
       Throw (Error "Max navigation attempts reached. Unable to navigate to dashboard.") ∧
     count is_delay (LoginJs.navigationPhase N w).2 = N).
Proof.
  split; [apply loginPhase_shape|]. split; [apply navigationPhase_shape|]. split.
  - intros Hfail.
    destruct (loginPhase_all_fail USERNAME PASSWORD N w Hfail) as (w' & evs & -> & _ & Hd).
    by split.
  - intros Hfail.
    destruct (navigationPhase_all_fail N w Hfail) as (w' & evs & -> & _ & Hd).
    by split.
Qed.

(** C3 at a bound of 3, on the portal whose Next button never shows. *)
Lemma C3_delay_witness :
  (all_fail 3 (LoginJs.loginTry "station1" "pw1") LoginJs.loginCatch 0 Portal.stuck = true ∧
   (LoginJs.loginPhase "station1" "pw1" 3 Portal.stuck).1.1 =
     Throw (Error "Max login attempts reached. Unable to login.") ∧
   count is_delay (LoginJs.loginPhase "station1" "pw1" 3 Portal.stuck).2 = 3)
  ∧
  (all_fail 3 LoginJs.navigationTry LoginJs.navigationCatch 0 Portal.stuck = true ∧
   (LoginJs.navigationPhase 3 Portal.stuck).1.1 =
     Throw (Error "Max navigation attempts reached. Unable to navigate to dashboard.") ∧
   count is_delay (LoginJs.navigationPhase 3 Portal.stuck).2 = 3).
Proof.
  destruct (C3_one_delay_after_each_failed_attempt "station1" "pw1" 3 Portal.stuck)
    as (_ & _ & Hlogin & Hnavigation).
  split.
  - split; [by vm_compute | apply Hlogin; by vm_compute].
  - split; [by vm_compute | apply Hnavigation; by vm_compute].
Defined.

(** C3 as stated fails: with a bound of 3 and a Next button that never
    shows, the phase makes 3 attempts, throws the exhaustion error, and has
    waited 3 times, not 2. *)
Lemma C3_counterexample :
  let run := LoginJs.loginPhase "station1" "pw1" 3 Portal.stuck in
  all_fail 3 (LoginJs.loginTry "station1" "pw1") LoginJs.loginCatch 0 Portal.stuck = true ∧
  run.1.1 = Throw (Error "Max login attempts reached. Unable to login.") ∧
  count is_login_attempt run.2 = 3 ∧
  count is_delay run.2 ≠ 3 - 1.
Proof. vm_compute. repeat split; congruence. Qed.

(** ** The form flow of [login.js] *)

(** Runs [issue] in [H] along the calls that the execution has settled. *)
Ltac run_issue H :=
  cbn [issue app fst snd] in H;
  repeat (match goal with
          | E : perform_call ?c ?w = _ |- _ => rewrite E in H
          end; cbn [issue app fst snd] in H).

(** C6.  When the username field is present, the awaited calls of an
    attempt are exactly these, in this order: the navigation; the wait for
    the username field, [page.focus] on it and the typing of the username;
    then, if nothing was rejected and the query for the 'remember me' label
    resolved, the click on the label exactly when the label was found, the
    wait for Next, the click on it, the wait for the password field, the
    typing of the password, the wait for Verify, the click on it and the
    wait for the navigation.  Each call is made in the state the one before
    it left, and the attempt stops at the first call that is rejected.
    When no call is rejected the attempt runs to its end, and its waits,
    typing and clicks are the whole sequence of the specification; an
    attempt cut short has made an initial part of it. *)
Theorem C6_form_interactions_in_order {W : Type} `{!Puppeteer W}
    (USERNAME PASSWORD : string) (w w1 w2 : W) :
  perform_call (Goto pages.login.url networkidle2) w = (inr (), w1) →
  query_selector pages.login.username w1 = (inr true, w2) →
  let run := LoginJs.loginTry USERNAME PASSWORD w in
  let '(entered, resolved, w3) := issue (username_calls USERNAME) w2 in
  (calls run.2 =
     Goto pages.login.url networkidle2 :: entered ++
     (if resolved then
        match query_selector pages.login.rememberMe w3 with
        | (inr remember, w4) => (issue (submit_calls PASSWORD remember) w4).1.1
        | (inl _, _) => []
        end
      else []))
  ∧
  (resolved = true →
   ∀ remember w4,
     query_selector pages.login.rememberMe w3 = (inr remember, w4) →
     (issue (submit_calls PASSWORD remember) w4).1.2 = true →
     (∃ s, run.1.1 = Normal s) ∧
     interactions run.2 = form_sequence USERNAME PASSWORD remember)
  ∧
  (∃ remember, interactions run.2 `prefix_of` form_sequence USERNAME PASSWORD remember).
Proof.
  intros Hgoto Hform. cbv zeta.
  assert (LoginJs.loginTry USERNAME PASSWORD w =
            let '(r, w', evs) :=
              (_log "Login form detected. Logging in...";;
               LoginJs.formFlow USERNAME PASSWORD;;
               LoginJs.checkLanding) w2 in
            (r, w',
             Called (Goto pages.login.url networkidle2)
             :: Queried pages.login.username :: evs)) as ->.
  { unfold LoginJs.loginTry.
    rewrite bind_run. unfold await at 1. rewrite Hgoto. cbn [of_reply].
    rewrite bind_run. unfold page_query at 1. rewrite Hform. cbn [of_reply].
    by destruct ((_log "Login form detected. Logging in...";;
                  LoginJs.formFlow USERNAME PASSWORD;;
                  LoginJs.checkLanding) w2) as [[[s|e] w'] evs]. }
  clear Hgoto Hform.
  unfold LoginJs.formFlow, LoginJs.enterUsername, LoginJs.clickRememberMe,
    LoginJs.submitForm, LoginJs.checkLanding, username_calls, submit_calls,
    form_sequence.
  exec.
  all: split; [reflexivity|]; split;
    [ | first [ exists true; by eexists | exists false; by eexists ] ].
  all: intros Hres remember w' Hq Hok; try discriminate Hres; try discriminate Hq.
  all: injection Hq as <- <-.
  all: run_issue Hok; try discriminate Hok.
  all: split; [by eexists | reflexivity].
Qed.

(** C6 on a first run of the portal, where no call is rejected and the
    label is found: the attempt makes all twelve calls. *)
Lemma C6_form_interactions_witness :
  let w1 := Portal.move pages.login.url false Portal.fresh in
  let run := LoginJs.loginTry "station1" "pw1" Portal.fresh in
  perform_call (Goto pages.login.url networkidle2) Portal.fresh = (inr (), w1) ∧
  query_selector pages.login.username w1 = (inr true, w1) ∧
  calls run.2 =
    [ Goto pages.login.url networkidle2;
      WaitForSelector pages.login.username 10000;
      Focus pages.login.username;
      TypeText pages.login.username "station1";
      HandleClick pages.login.rememberMe;
      WaitForSelector pages.login.nextButton 5000;
      Click pages.login.nextButton;
      WaitForSelector pages.login.password 10000;
      TypeText pages.login.password "pw1";
      WaitForSelector pages.login.verifyButton 5000;
      Click pages.login.verifyButton;
      WaitForNavigation domcontentloaded ] ∧
  (∃ s, run.1.1 = Normal s) ∧
  interactions run.2 = form_sequence "station1" "pw1" true.
Proof.
  intros w1 run.
  assert (perform_call (Goto pages.login.url networkidle2) Portal.fresh = (inr (), w1))
    as Hgoto by by vm_compute.
  assert (query_selector pages.login.username w1 = (inr true, w1))
    as Hform by by vm_compute.
  split; [exact Hgoto|]. split; [exact Hform|].
  pose proof (C6_form_interactions_in_order "station1" "pw1" Portal.fresh w1 w1
                Hgoto Hform) as Hrun.
  cbv zeta in Hrun. fold run in Hrun.
  change (issue (username_calls "station1") w1)
    with (username_calls "station1", true, w1) in Hrun.
  destruct Hrun as (Hcalls & Hwhole & _).
  split; [exact Hcalls|].
  apply (Hwhole eq_refl true w1); by vm_compute.
Defined.

(** Beside the interactions, an attempt of [login.js] calls [page.goto]
    first and [page.focus] on the username field before it types into it. *)
Lemma loginTry_calls_in_order {W : Type} `{!Puppeteer W}
    (USERNAME PASSWORD : string) (w : W) :
  ∃ remember : bool,
    calls (LoginJs.loginTry USERNAME PASSWORD w).2
      `prefix_of`
      [ Goto pages.login.url networkidle2;
        WaitForSelector pages.login.username 10000;
        Focus pages.login.username;
        TypeText pages.login.username USERNAME ]
      ++ (if remember then [HandleClick pages.login.rememberMe] else [])
      ++ [ WaitForSelector pages.login.nextButton 5000;
           Click pages.login.nextButton;
           WaitForSelector pages.login.password 10000;
           TypeText pages.login.password PASSWORD;
           WaitForSelector pages.login.verifyButton 5000;
           Click pages.login.verifyButton;
           WaitForNavigation domcontentloaded ].
Proof.
  unfold LoginJs.loginTry, LoginJs.formFlow, LoginJs.enterUsername,
    LoginJs.clickRememberMe, LoginJs.submitForm, LoginJs.checkLanding.
  exec.
  all: first [ exists true; by eexists | exists false; by eexists ].
Qed.

Section FormFlow.
Context {W : Type} `{!Puppeteer W} (USERNAME PASSWORD : string).

(** What an attempt does once the form flow has run to its end. *)
Lemma loginTry_after_formFlow (w w1 w2 w3 : W) evs :
  perform_call (Goto pages.login.url networkidle2) w = (inr (), w1) →
  query_selector pages.login.username w1 = (inr true, w2) →
  LoginJs.formFlow USERNAME PASSWORD w2 = (Normal (), w3, evs) →
  (LoginJs.loginTry USERNAME PASSWORD w).1 =
    (Normal (if includes (page_url w3) pages.dashboard.url
                || includes (page_url w3) pages.webapp.url
             then Break else Fallthrough), w3).
Proof.
  intros Hgoto Hform Hflow. unfold LoginJs.loginTry.
  rewrite bind_run. unfold await at 1. rewrite Hgoto. simpl.
  rewrite bind_run. unfold page_query at 1. rewrite Hform. simpl.
  rewrite bind_run. unfold _log at 1.
  rewrite bind_run, Hflow.
  unfold LoginJs.checkLanding. rewrite bind_run. unfold url at 1.
  by destruct (includes (page_url w3) pages.dashboard.url
               || includes (page_url w3) pages.webapp.url).
Qed.

(** An attempt that breaks ends the login phase with success. *)
Lemma loginPhase_first_attempt_breaks N (w w' : W) evs :
  LoginJs.loginTry USERNAME PASSWORD w = (Normal Break, w', evs) →
  LoginJs.loginPhase USERNAME PASSWORD (S N) w = (Normal (), w', evs).
Proof.
  intros Htry. unfold LoginJs.loginPhase. simpl retry_while.
  rewrite bind_run, bind_run. unfold attempt, try_catch. rewrite Htry.
  simpl. by rewrite !app_nil_r.
Qed.

End FormFlow.

(** C7.  Once the form flow has run through its wait for the navigation,
    the attempt is a success exactly when the URL of the page contains the
    dashboard URL or the application base URL, either one; nothing else of
    the page is looked at.  A success ends the login phase. *)
Theorem C7_success_decided_by_url {W : Type} `{!Puppeteer W}
    (USERNAME PASSWORD : string) (w w1 w2 w3 : W) (evs : list event) :
  perform_call (Goto pages.login.url networkidle2) w = (inr (), w1) →
  query_selector pages.login.username w1 = (inr true, w2) →
  LoginJs.formFlow USERNAME PASSWORD w2 = (Normal (), w3, evs) →
  let landed := includes (page_url w3) pages.dashboard.url
                || includes (page_url w3) pages.webapp.url in
  (LoginJs.loginTry USERNAME PASSWORD w).1 =
    (Normal (if landed then Break else Fallthrough), w3) ∧
  (landed = true →
   ∀ N, (LoginJs.loginPhase USERNAME PASSWORD (S N) w).1 = (Normal (), w3)).
Proof.
  intros Hgoto Hform Hflow landed.
  pose proof (loginTry_after_formFlow USERNAME PASSWORD w w1 w2 w3 evs Hgoto Hform Hflow)
    as Htry.
  split; [exact Htry|].
  intros Hlanded N. fold landed in Htry. rewrite Hlanded in Htry.
  destruct (LoginJs.loginTry USERNAME PASSWORD w) as [[r w'] evs'] eqn:Hrun.
  simpl in Htry. injection Htry as -> ->.
  by rewrite (loginPhase_first_attempt_breaks USERNAME PASSWORD N w w3 evs' Hrun).
Qed.

(** C7 on a first run of the portal: Verify lands on the dashboard. *)
Lemma C7_success_witness :
  let w1 := Portal.move pages.login.url false Portal.fresh in
  let w3 := Portal.move pages.dashboard.url true Portal.fresh in
  perform_call (Goto pages.login.url networkidle2) Portal.fresh = (inr (), w1) ∧
  query_selector pages.login.username w1 = (inr true, w1) ∧
  LoginJs.formFlow "station1" "pw1" w1
    = (Normal (), w3, (LoginJs.formFlow "station1" "pw1" w1).2) ∧
  (LoginJs.loginTry "station1" "pw1" Portal.fresh).1 = (Normal Break, w3) ∧
  (LoginJs.loginPhase "station1" "pw1" 5 Portal.fresh).1 = (Normal (), w3).
Proof.
  intros w1 w3.
  split; [by vm_compute|]. split; [by vm_compute|]. split; [by vm_compute|].
  destruct (C7_success_decided_by_url "station1" "pw1" Portal.fresh w1 w1 w3
              (LoginJs.formFlow "station1" "pw1" w1).2) as [Htry Hphase];
    [by vm_compute..|].
  split; [exact Htry | apply Hphase; by vm_compute].
Defined.

(** C8.  The login URL contains the application base URL, so a form flow
    that ends back on the login page is taken for a successful login, by
    [login.js] and by [isloggedInPage] of the TypeScript port alike. *)
Theorem C8_login_url_counts_as_logged_in {W : Type} `{!Puppeteer W}
    (USERNAME PASSWORD : string) (w w1 w2 w3 : W) (evs : list event) :
  perform_call (Goto pages.login.url networkidle2) w = (inr (), w1) →
  query_selector pages.login.username w1 = (inr true, w2) →
  LoginJs.formFlow USERNAME PASSWORD w2 = (Normal (), w3, evs) →
  page_url w3 = pages.login.url →
  includes pages.login.url pages.webapp.url = true ∧
  (LoginJs.loginTry USERNAME PASSWORD w).1 = (Normal Break, w3) ∧
  LoginTs.isloggedInPage w3 = (Normal true, w3, []).
Proof.
  intros Hgoto Hform Hflow Hurl.
  split; [by vm_compute|]. split.
  - rewrite (loginTry_after_formFlow USERNAME PASSWORD w w1 w2 w3 evs Hgoto Hform Hflow).
    rewrite Hurl. by vm_compute.
  - unfold LoginTs.isloggedInPage. rewrite bind_run. unfold url at 1.
    rewrite Hurl. by vm_compute.
Qed.

(** C8 on the portal that rejects the credentials: Verify leads back to the
    login page, and the attempt is taken for a success all the same. *)
Lemma C8_login_url_witness :
  let w1 := Portal.move pages.login.url false Portal.rejected in
  perform_call (Goto pages.login.url networkidle2) Portal.rejected = (inr (), w1) ∧
  query_selector pages.login.username w1 = (inr true, w1) ∧
  LoginJs.formFlow "station1" "wrong" w1
    = (Normal (), w1, (LoginJs.formFlow "station1" "wrong" w1).2) ∧
  page_url w1 = pages.login.url ∧
  (LoginJs.loginTry "station1" "wrong" Portal.rejected).1 = (Normal Break, w1).
Proof.
  intros w1.
  split; [by vm_compute|]. split; [by vm_compute|]. split; [by vm_compute|].
  split; [by vm_compute|].
  apply (C8_login_url_counts_as_logged_in "station1" "wrong" Portal.rejected w1 w1 w1
           (LoginJs.formFlow "station1" "wrong" w1).2); by vm_compute.
Defined.

(** C10.  When the 'remember me' label is absent nothing is clicked and
    nothing is thrown: the step completes in the state the query left, and
    the attempt goes on from there with the wait for the Next button, so
    that the outcome of the attempt is the outcome of what follows. *)
Theorem C10_absent_remember_me_is_skipped {W : Type} `{!Puppeteer W}
    (USERNAME PASSWORD : string) (w w' : W) :
  query_selector pages.login.rememberMe w = (inr false, w') →
  LoginJs.clickRememberMe w =
    (Normal (), w', [Queried pages.login.rememberMe; Logged "Remember Me clicked."]) ∧
  (LoginJs.clickRememberMe;; LoginJs.submitForm PASSWORD) w =
    (let '(r, w'', evs) := LoginJs.submitForm PASSWORD w' in
     (r, w'', [Queried pages.login.rememberMe; Logged "Remember Me clicked."] ++ evs)) ∧
  (∀ w0 w1 w2 evs0,
     perform_call (Goto pages.login.url networkidle2) w0 = (inr (), w1) →
     query_selector pages.login.username w1 = (inr true, w2) →
     LoginJs.enterUsername USERNAME w2 = (Normal (), w, evs0) →
     LoginJs.loginTry USERNAME PASSWORD w0 =
       (let '(r, w'', evs) := (LoginJs.submitForm PASSWORD;; LoginJs.checkLanding) w' in
        (r, w'',
         [Called (Goto pages.login.url networkidle2); Queried pages.login.username;
          Logged "Login form detected. Logging in..."]
         ++ evs0 ++ [Queried pages.login.rememberMe; Logged "Remember Me clicked."]
         ++ evs))).
Proof.
  intros Hquery.
  assert (LoginJs.clickRememberMe w =
    (Normal (), w', [Queried pages.login.rememberMe; Logged "Remember Me clicked."]))
    as Hstep.
  { unfold LoginJs.clickRememberMe. rewrite bind_run. unfold page_query at 1.
    by rewrite Hquery. }
  split; [exact Hstep|]. split; [by rewrite bind_run, Hstep|].
  intros w0 w1 w2 evs0 Hgoto Hform Henter.
  unfold LoginJs.loginTry.
  rewrite bind_run. unfold await at 1. rewrite Hgoto. simpl.
  rewrite bind_run. unfold page_query at 1. rewrite Hform. simpl.
  rewrite bind_run. unfold _log at 1.
  unfold LoginJs.formFlow. rewrite bind_assoc.
  rewrite bind_run, Henter, bind_assoc, bind_run, Hstep.
  destruct ((LoginJs.submitForm PASSWORD;; LoginJs.checkLanding) w') as [[r w''] evs].
  done.
Qed.

(** C10 on the portal that renders no label: the attempt succeeds. *)
Lemma C10_absent_remember_me_witness :
  let w := Portal.move pages.login.url false Portal.plain in
  query_selector pages.login.rememberMe w = (inr false, w) ∧
  LoginJs.clickRememberMe w =
    (Normal (), w, [Queried pages.login.rememberMe; Logged "Remember Me clicked."]) ∧
  (LoginJs.loginTry "station1" "pw1" Portal.plain).1.1 = Normal Break.
Proof.
  intros w. split; [by vm_compute|]. split; [|by vm_compute].
  apply (C10_absent_remember_me_is_skipped "station1" "pw1" w w). by vm_compute.
Defined.

(** ** The preferences patch *)


(** The designated keys hold the values the script assigns, whatever the
    object held before. *)
Lemma patchPreferences_designated (fields : gmap string json) :
  ∃ fields' profile',
    patchPreferences (JObj fields) = Normal (JObj fields') ∧
    fields' !! "credentials_enable_service" = Some (JBool false) ∧
    fields' !! "credentials_enable_autosignin" = Some (JBool false) ∧
    fields' !! "profile" = Some (JObj profile') ∧
    profile' !! "password_manager_leak_detection" = Some (JBool false) ∧
    profile' !! "password_manager_enabled" = Some (JBool false) ∧
    (∀ session, fields !! "session" = Some (JObj session) ∨ fields !! "session" = None →
       ∃ session', fields' !! "session" = Some (JObj session') ∧
         session' !! "restore_on_startup" = Some (JNum 0) ∧
         session' !! "restore_on_startup_urls" = Some (JArr [])).
Proof.
  eexists _, _. split; [reflexivity|].
  split; [by rewrite lookup_insert_ne, lookup_insert_ne, lookup_insert_eq|].
  split; [by rewrite lookup_insert_ne, lookup_insert_eq|].
  split.
  { rewrite lookup_insert_ne by done. rewrite lookup_insert_ne by done.
    rewrite lookup_insert_ne by done. apply lookup_insert_eq. }
  split; [by rewrite lookup_insert_ne, lookup_insert_eq|].
  split; [by rewrite lookup_insert_eq|].
  intros session Hsession. rewrite lookup_insert_eq.
  rewrite lookup_insert_ne by done. rewrite lookup_insert_ne by done.
  rewrite lookup_insert_ne by done.
  destruct Hsession as [-> | ->]; simpl.
  - eexists. split; [reflexivity|].
    split; [by rewrite lookup_insert_ne, lookup_insert_eq | by rewrite lookup_insert_eq].
  - eexists. split; [reflexivity|].
    split; [by rewrite lookup_insert_ne, lookup_insert_eq | by rewrite lookup_insert_eq].
Qed.

(** What [JSON.stringify] leaves of a field, and a document that it writes
    as it is. *)
Lemma stringify_lookup (fields : gmap string json) k :
  (stringify <$> fields) !! k = stringify <$> (fields !! k).
Proof. apply lookup_fmap. Qed.





(** C5, as the code has it.  When reading or parsing the [Preferences] file
    fails, the error is logged and the patch is applied to an empty object:
    the file is overwritten with a document that holds the designated keys
    only, unless the write fails as well, which is logged.  Either way
    [updatePreferences] returns normally and [loginToRFSActiv] runs. *)
Theorem C5_failed_read_patches_an_empty_document {W : Type} `{!Puppeteer W}
    (USERNAME PASSWORD userDataPath : string) (d : disk) (f : file) (error : exn)
    (w : W) :
  preferencesFile d = Some f →
  readPreferences d f = inl error →
  ∃ defaults,
    patchPreferences (JObj ∅) = Normal (JObj defaults) ∧
    dom defaults =
      ({[ "profile"; "credentials_enable_service"; "credentials_enable_autosignin";
          "session" ]} : gset string) ∧
    (updatePreferences userDataPath d).1.1 = Normal () ∧
    LoggedError "Error reading Preferences file:" (Some error)
      ∈ (updatePreferences userDataPath d).2 ∧
    (write_error d = None →
       preferencesFile (updatePreferences userDataPath d).1.2
       = Some (JsonText (JObj defaults))) ∧
    (∀ e, write_error d = Some e →
       LoggedError "Error writing Preferences file:" (Some e)
         ∈ (updatePreferences userDataPath d).2) ∧
    LoginJs.main USERNAME PASSWORD userDataPath d w =
      (let '(r, w', evs) := LoginJs.loginToRFSActiv USERNAME PASSWORD 5 5 w in
       (r, (updatePreferences userDataPath d).1.2, w',
        (updatePreferences userDataPath d).2 ++ evs)).
Proof.
  intros Hfile Hread.
  eexists. split; [reflexivity|].
  split; [rewrite !dom_insert_L, dom_empty_L; set_solver|].
  assert (userData d = Present (Some f)) as Hdir.
  { unfold preferencesFile in Hfile. destruct (userData d); by simplify_eq. }
  unfold LoginJs.main, updatePreferences. rewrite Hdir. simpl.
  unfold preferencesFile. rewrite Hdir, Hread.
  change (patchPreferences (JObj ∅)) with (Normal (JObj
    (<["session" := assign (assign (JObj ∅) "restore_on_startup" (JNum 0))
                      "restore_on_startup_urls" (JArr [])]>
     (<["credentials_enable_autosignin" := JBool false]>
      (<["credentials_enable_service" := JBool false]>
       (<["profile" := JObj (<["password_manager_enabled" := JBool false]>
                            (<["password_manager_leak_detection" := JBool false]> ∅))]>
        ∅)))))).
  destruct (write_error d) as [e|]; simpl.
  - split; [done|]. split; [set_solver|]. split; [done|].
    split; [intros ? [= <-]; set_solver|].
    by destruct (LoginJs.loginToRFSActiv USERNAME PASSWORD 5 5 w) as [[r w'] evs].
  - split; [done|]. split; [set_solver|]. split; [done|]. split; [done|].
    by destruct (LoginJs.loginToRFSActiv USERNAME PASSWORD 5 5 w) as [[r w'] evs].
Qed.

(** C5 on a [Preferences] file that does not parse. *)
Lemma C5_failed_read_witness :
  preferencesFile Disks.corrupt = Some (Garbled "{ browser: { ") ∧
  readPreferences Disks.corrupt (Garbled "{ browser: { ")
    = inl (Err "SyntaxError" "Unexpected token in JSON") ∧
  (updatePreferences "user-data" Disks.corrupt).1.1 = Normal () ∧
  LoggedError "Error reading Preferences file:"
    (Some (Err "SyntaxError" "Unexpected token in JSON"))
    ∈ (updatePreferences "user-data" Disks.corrupt).2 ∧
  count is_login_attempt
    (LoginJs.main "station1" "pw1" "user-data" Disks.corrupt Portal.fresh).2 = 1.
Proof.
  split; [done|]. split; [done|].
  destruct (C5_failed_read_patches_an_empty_document "station1" "pw1" "user-data"
              Disks.corrupt (Garbled "{ browser: { ")
              (Err "SyntaxError" "Unexpected token in JSON") Portal.fresh)
    as (defaults & _ & _ & Hnormal & Hlogged & _ & _ & Hmain); [done..|].
  split; [exact Hnormal|]. split; [exact Hlogged|].
  rewrite Hmain. by vm_compute.
Defined.

(** C5 as stated fails: a [Preferences] file that does not parse is not
    left as it was.  The patch is written over it. *)
Lemma C5_counterexample :
  let d := Disks.corrupt in
  let run := updatePreferences "user-data" d in
  preferencesFile d = Some (Garbled "{ browser: { ") ∧
  readPreferences d (Garbled "{ browser: { ")
    = inl (Err "SyntaxError" "Unexpected token in JSON") ∧
  Wrote (preferencesPath "user-data") ∈ run.2 ∧
  preferencesFile run.1.2 ≠ preferencesFile d.
Proof.
  split; [done|]. split; [done|]. split.
  - vm_compute. set_solver.
  - by vm_compute.
Qed.

(** ** The scenarios of the specification, run on the simulated portal *)

(** Credentials [("station1", "pw1")], five attempts per phase, the form is
    present and every field responds at once: the login phase succeeds in
    its first attempt without a delay, and so does the dashboard phase;
    the zoom is set and the six-hour timer is installed. *)
Example scenario_first_run :
  let run := LoginJs.loginToRFSActiv "station1" "pw1" 5 5 Portal.fresh in
  run.1.1 = Normal () ∧
  count is_login_attempt run.2 = 1 ∧
  count is_dashboard_attempt run.2 = 1 ∧
  count is_delay run.2 = 0 ∧
  interactions run.2 = form_sequence "station1" "pw1" true ∧
  drop (length run.2 - 2) run.2 = [Called (EvaluateZoom "1.3"); TimerSet 21600000].
Proof. vm_compute. by repeat split. Qed.

(** With a bound of three and a Next button that never shows, the login
    phase is exhausted and the navigation phase is never started. *)
Example scenario_next_never_shows :
  let run := LoginJs.loginToRFSActiv "station1" "pw1" 3 5 Portal.stuck in
  run.1.1 = Normal () ∧
  count is_login_attempt run.2 = 3 ∧
  count is_dashboard_attempt run.2 = 0 ∧
  count (λ e, match e with TimerSet _ => true | _ => false end) run.2 = 0 ∧
  last run.2 =
    Some (LoggedError "Error during login:"
            (Some (Error "Max login attempts reached. Unable to login."))).
Proof. vm_compute. by repeat split. Qed.

(** The whole script on a first run: there is no profile directory, so the
    directory is made, no [Preferences] file is written, and the login
    goes ahead. *)
Example scenario_main_first_run :
  let run := LoginJs.main "station1" "pw1" "user-data" Disks.first_run Portal.fresh in
  run.1.1.1 = Normal () ∧
  preferencesFile run.1.1.2 = None ∧
  take 3 run.2 =
    [ Mkdir "user-data"; Logged "Checking for Preferences file...";
      LoggedError "Preferences file still does not exist. Skipping update." None ] ∧
  count is_login_attempt run.2 = 1.
Proof. vm_compute. by repeat split. Qed.

(** A [Preferences] file that holds [null] parses, but the patch throws on
    it outside every [try]: [updatePreferences] rejects and the login is
    never started. *)
Example scenario_null_preferences :
  let d := Disks.no_faults (Present (Some (JsonText JNull))) in
  let run := LoginJs.main "station1" "pw1" "user-data" d Portal.fresh in
  run.1.1.1 = Throw (Err "TypeError" "Cannot read properties of null (reading 'profile')") ∧
  run.1.1.2 = d ∧
  count is_login_attempt run.2 = 0.
Proof. vm_compute. by repeat split. Qed.

(** ** More about [updatePreferences] *)

(** Patching a patched document changes nothing. *)
Lemma patchPreferences_idempotent doc doc' :
  patchPreferences doc = Normal doc' → patchPreferences doc' = Normal doc'.
Proof.
  destruct doc as [| | | |items|fields]; simpl; try done.
  - by intros [= <-].
  - intros [= <-]. simpl. do 2 f_equal.
    set (profile := JObj (<["password_manager_enabled":=JBool false]>
             (<["password_manager_leak_detection":=JBool false]>
                (spread (fields !! "profile"))))).
    set (f3 := <["credentials_enable_autosignin":=JBool false]>
                 (<["credentials_enable_service":=JBool false]>
                    (<["profile":=profile]> fields))).
    set (s0 := match f3 !! "session" with
               | Some v => if truthy v then v else JObj ∅
               | None => JObj ∅
               end).
    set (s2 := assign (assign s0 "restore_on_startup" (JNum 0))
                 "restore_on_startup_urls" (JArr [])).
    assert (truthy s0 = true) as Hs0.
    { unfold s0. destruct (f3 !! "session") as [v|]; [|done].
      by destruct (truthy v) eqn:Hv. }
    assert (truthy s2 = true) as Hs2.
    { unfold s2. by destruct s0. }
    assert (assign (assign s2 "restore_on_startup" (JNum 0))
              "restore_on_startup_urls" (JArr []) = s2) as Hassign.
    { unfold s2. destruct s0; simpl; try done. f_equal.
      apply map_eq. intros k. rewrite !lookup_insert. repeat case_decide; congruence. }
    assert ((<["session":=s2]> f3) !! "profile" = Some profile) as Hprofile.
    { unfold f3. rewrite lookup_insert_ne by done. rewrite lookup_insert_ne by done.
      rewrite lookup_insert_ne by done. apply lookup_insert_eq. }
    rewrite Hprofile.
    assert (JObj (<["password_manager_enabled":=JBool false]>
             (<["password_manager_leak_detection":=JBool false]>
                (spread (Some profile)))) = profile) as Hp.
    { unfold profile. simpl. f_equal.
      apply map_eq. intros k. rewrite !lookup_insert. repeat case_decide; congruence. }
    rewrite Hp.
    assert (<["credentials_enable_autosignin":=JBool false]>
              (<["credentials_enable_service":=JBool false]>
                 (<["profile":=profile]> (<["session":=s2]> f3)))
            = <["session":=s2]> f3) as Hf.
    { unfold f3. apply map_eq. intros k. rewrite !lookup_insert.
      repeat case_decide; congruence. }
    rewrite Hf, lookup_insert_eq, Hs2, Hassign.
    apply insert_insert_eq.
Qed.

Lemma patchPreferences_patchable doc :
  (∃ doc', patchPreferences doc = Normal doc' ∧ patchable doc' = true ∧ patchable doc = true)
  ∨ (∃ e, patchPreferences doc = Throw e ∧ patchable doc = false).
Proof. destruct doc; simpl; eauto. Qed.

(** *** Documents as [JSON.stringify] writes them *)

Lemma json_size_lookup (fields : gmap string json) k v :
  fields !! k = Some v → json_size v < json_size (JObj fields).
Proof.
  intros Hk. simpl. rewrite <- (insert_delete_id fields k v Hk).
  rewrite map_fold_insert_L; [lia| |apply lookup_delete_eq].
  intros. lia.
Qed.

Lemma json_size_elem (items : list json) v :
  v ∈ items → json_size v < json_size (JArr items).
Proof. simpl. induction 1; simpl; lia. Qed.

(** Induction on documents, through their arrays and objects. *)
Lemma json_induction (P : json → Prop) :
  P JNull → (∀ b, P (JBool b)) → (∀ x, P (JNum x)) → (∀ s, P (JStr s)) →
  (∀ items, Forall P items → P (JArr items)) →
  (∀ fields, map_Forall (λ _, P) fields → P (JObj fields)) →
  ∀ v, P v.
Proof.
  intros Hnull Hbool Hnum Hstr Harr Hobj v.
  remember (json_size v) as n eqn:Hn. revert v Hn.
  induction n as [n IH] using lt_wf_ind. intros v ->.
  destruct v; auto.
  - apply Harr. apply Forall_forall. intros v Hv.
    eapply IH; [|reflexivity]. by apply json_size_elem.
  - apply Hobj. intros k v Hk.
    eapply IH; [|reflexivity]. by eapply json_size_lookup.
Qed.

Lemma number_stringify x : stringify (number x) = number x.
Proof.
  unfold number. destruct (_ || _) eqn:Hbad; [done|].
  destruct (PrimFloat.eqb x 0) eqn:Hz; simpl; unfold number.
  - done.
  - by rewrite Hbad, Hz.
Qed.

(** Writing what has been written once changes nothing more. *)
Lemma stringify_idempotent v : stringify (stringify v) = stringify v.
Proof.
  induction v as [|b|x|s|items IH|fields IH] using json_induction; try done.
  - apply number_stringify.
  - simpl. f_equal. rewrite <- list_fmap_compose.
    apply Forall_fmap_ext_1. exact IH.
  - simpl. f_equal. rewrite <- map_fmap_compose.
    apply map_fmap_ext. intros k v Hk. exact (IH k v Hk).
Qed.

Lemma patchable_stringify v : patchable (stringify v) = patchable v.
Proof. destruct v; try done. simpl. unfold number. by repeat case_match. Qed.

Lemma indexed_fmap (f : json → json) (items : list json) :
  f <$> indexed items = indexed (f <$> items).
Proof.
  unfold indexed. rewrite <- list_to_map_fmap. f_equal.
  rewrite fmap_imap, imap_fmap. by apply imap_ext.
Qed.

Lemma stringify_some (v : json) :
  stringify v = v → ∀ fields, v = JObj fields → stringify <$> fields = fields.
Proof. intros Hv fields ->. by injection Hv. Qed.

(** The properties that a spread copies from a value written as it is are
    written as they are. *)
Lemma spread_stable (o : option json) :
  (∀ v, o = Some v → stringify v = v) →
  stringify <$> spread o = spread o.
Proof.
  intros Hstable. destruct o as [[| | |s|items|fields]|]; simpl;
    try apply fmap_empty.
  - rewrite indexed_fmap. f_equal. rewrite <- list_fmap_compose.
    by apply list_fmap_ext.
  - rewrite indexed_fmap. f_equal.
    specialize (Hstable _ eq_refl). by injection Hstable.
  - specialize (Hstable _ eq_refl). by injection Hstable.
Qed.

(** The patch of a document that is written as it is, is written as it
    is. *)
Lemma patchPreferences_stable doc doc' :
  stringify doc = doc →
  patchPreferences doc = Normal doc' →
  stringify doc' = doc'.
Proof.
  destruct doc as [| | | |items|fields]; simpl; try done.
  - by intros Hstable [= <-].
  - intros [= Hstable] [= <-].
    assert (∀ k, stringify <$> (fields !! k) = fields !! k) as Hfield.
    { intros k. by rewrite <- stringify_lookup, Hstable. }
    simpl. f_equal.
    rewrite !fmap_insert, Hstable. simpl.
    rewrite !fmap_insert. simpl.
    rewrite spread_stable.
    2: { intros v Hv. specialize (Hfield "profile"). rewrite Hv in Hfield.
         exact (f_equal (default JNull) Hfield). }
    f_equal.
    rewrite lookup_insert_ne by done. rewrite lookup_insert_ne by done.
    rewrite lookup_insert_ne by done.
    specialize (Hfield "session").
    destruct (fields !! "session") as [v|]; [|by vm_compute].
    pose proof (f_equal (default JNull) Hfield) as Hv. simpl in Hv.
    destruct (truthy v); [|by vm_compute].
    destruct v as [| | | | |session]; try done.
    injection Hv as Hsession. simpl. f_equal.
    by rewrite !fmap_insert, Hsession.
Qed.

Lemma stringify_empty_object : stringify (JObj ∅) = JObj ∅.
Proof. simpl. by rewrite fmap_empty. Qed.

(** A run on a [Preferences] file that is written as it is: a second run
    leaves the disk as the first left it. *)
Lemma updatePreferences_stable_twice (userDataPath : string) (d : disk) :
  (∀ doc, preferencesFile d = Some (JsonText doc) → stringify doc = doc) →
  (updatePreferences userDataPath (updatePreferences userDataPath d).1.2).1.2
  = (updatePreferences userDataPath d).1.2.
Proof.
  destruct d as [[|[f|]] mk rd wr];
    unfold updatePreferences, preferencesFile, readPreferences;
    cbn -[patchPreferences stringify]; intros Hstable.
  - by destruct mk.
  - destruct rd as [e|]; cbn -[patchPreferences stringify].
    + (* the read fails, both times *)
      destruct (patchPreferences (JObj ∅)) as [doc'|e0] eqn:Hpatch;
        cbn -[patchPreferences stringify]; [|by rewrite Hpatch].
      destruct wr; cbn -[patchPreferences stringify]; by rewrite Hpatch.
    + destruct f as [doc|raw]; cbn -[patchPreferences stringify].
      * destruct (patchPreferences doc) as [doc'|e] eqn:Hpatch;
          cbn -[patchPreferences stringify]; [|by rewrite Hpatch].
        destruct wr; cbn -[patchPreferences stringify]; [by rewrite Hpatch|].
        pose proof (patchPreferences_stable doc doc' (Hstable doc eq_refl) Hpatch) as Hdoc'.
        rewrite Hdoc', (patchPreferences_idempotent doc doc' Hpatch).
        cbn -[stringify]. by rewrite Hdoc'.
      * destruct (patchPreferences (JObj ∅)) as [doc'|e0] eqn:Hpatch;
          cbn -[patchPreferences stringify]; [|done].
        destruct wr; cbn -[patchPreferences stringify]; [done|].
        pose proof (patchPreferences_stable _ doc' stringify_empty_object Hpatch) as Hdoc'.
        rewrite Hdoc', (patchPreferences_idempotent _ _ Hpatch).
        cbn -[stringify]. by rewrite Hdoc'.
  - done.
Qed.

(** A run leaves a [Preferences] file that is written as it is, unless it
    leaves the disk as it found it. *)
Lemma updatePreferences_leaves_stable (userDataPath : string) (d : disk) :
  (∀ doc, preferencesFile (updatePreferences userDataPath d).1.2 = Some (JsonText doc) →
          stringify doc = doc)
  ∨ (updatePreferences userDataPath d).1.2 = d.
Proof.
  destruct d as [[|[f|]] mk rd wr];
    unfold updatePreferences, preferencesFile, readPreferences;
    cbn -[patchPreferences stringify].
  - destruct mk; [by right|]. left. by intros doc [=].
  - destruct (match match rd with Some e => inl e | None => _ end with
              | inl error => _ | inr document => _ end) as [doc0 evs0].
    destruct (patchPreferences doc0) as [doc'|e]; [|by right].
    destruct wr; [by right|]. left. cbn -[stringify].
    intros doc [= <-]. apply stringify_idempotent.
  - by right.
Qed.

(** X1.  The script runs at every boot.  With the same faults at each run,
    whatever the disk holds, a third run of [updatePreferences] leaves the
    disk exactly as the second left it; and already the second leaves it as
    the first left it when the [Preferences] document holds no number that
    [JSON.stringify] changes (an infinity, or negative zero). *)
Theorem updatePreferences_settles (userDataPath : string) (d : disk) :
  let run := λ d, (updatePreferences userDataPath d).1.2 in
  run (run (run d)) = run (run d) ∧
  ((∀ doc, preferencesFile d = Some (JsonText doc) → stringify doc = doc) →
   run (run d) = run d).
Proof.
  cbv zeta. split; [|apply updatePreferences_stable_twice].
  destruct (updatePreferences_leaves_stable userDataPath d) as [Hstable | Hsame].
  - by apply updatePreferences_stable_twice.
  - by rewrite !Hsame.
Qed.

(** X1 on the profile of an earlier run. *)
Lemma updatePreferences_settles_witness :
  let run := λ d, (updatePreferences "user-data" d).1.2 in
  stringify (JObj Disks.chrome_fields) = JObj Disks.chrome_fields ∧
  run (run Disks.used) = run Disks.used.
Proof.
  intros run.
  assert (stringify (JObj Disks.chrome_fields) = JObj Disks.chrome_fields)
    as Hstable by by vm_compute.
  split; [exact Hstable|].
  apply (updatePreferences_settles "user-data" Disks.used).
  by intros doc [= <-].
Defined.

(** Where the document holds such a number the second run can differ from
    the first: a [session] of [1e999] is truthy, so that the first run
    writes it back, as [null]; the second run finds a falsy [session] and
    writes the two session keys. *)
Example updatePreferences_second_run_differs :
  let run := λ d, (updatePreferences "user-data" d).1.2 in
  let d := Disks.no_faults
             (Present (Some (JsonText (JObj {[ "session" := JNum infinity ]})))) in
  (∃ written, preferencesFile (run d) = Some (JsonText (JObj written)) ∧
              written !! "session" = Some JNull) ∧
  (∃ written, preferencesFile (run (run d)) = Some (JsonText (JObj written)) ∧
              written !! "session" =
                Some (JObj (<["restore_on_startup_urls" := JArr []]>
                            (<["restore_on_startup" := JNum 0]> ∅)))).
Proof. split; eexists; by vm_compute. Qed.

(** X2.  [updatePreferences] rejects in exactly two situations: the profile
    directory is missing and cannot be made, or the [Preferences] file is
    read and holds [null] or a bare boolean, number or string.  Nothing on
    disk has changed when it does.  An unreadable or unparsable file, a
    missing file and a failed write never make it reject. *)
Theorem updatePreferences_rejects_iff (userDataPath : string) (d : disk) :
  ((∃ e, (updatePreferences userDataPath d).1.1 = Throw e) ↔
   (userData d = Missing ∧ is_Some (mkdir_error d)) ∨
   (∃ doc, preferencesFile d = Some (JsonText doc) ∧ read_error d = None ∧
           patchable doc = false))
  ∧
  (∀ e, (updatePreferences userDataPath d).1.1 = Throw e →
        (updatePreferences userDataPath d).1.2 = d).
Proof.
  destruct d as [[|[f|]] mk rd wr];
    unfold updatePreferences, preferencesFile, readPreferences;
    cbn -[patchPreferences].
  - destruct mk as [e|]; cbn.
    + split; [|done]. split; [intros _; left; by eauto | by eauto].
    + split; [|done]. split.
      * by intros [? [=]].
      * intros [[_ [e [=]]] | (doc & [=] & _)].
  - destruct rd as [e|]; cbn -[patchPreferences].
    + change (patchPreferences (JObj ∅)) with (Normal (JObj
        (<["session" := assign (assign (JObj ∅) "restore_on_startup" (JNum 0))
                          "restore_on_startup_urls" (JArr [])]>
         (<["credentials_enable_autosignin" := JBool false]>
          (<["credentials_enable_service" := JBool false]>
           (<["profile" := JObj (<["password_manager_enabled" := JBool false]>
                                (<["password_manager_leak_detection" := JBool false]> ∅))]>
            ∅)))))).
      destruct wr; cbn.
      * split; [|done]. split; [by intros [? [=]]|].
        intros [[[=] _] | (doc & _ & [=] & _)].
      * split; [|done]. split; [by intros [? [=]]|].
        intros [[[=] _] | (doc & _ & [=] & _)].
    + destruct f as [doc|raw]; cbn -[patchPreferences].
      * destruct (patchPreferences_patchable doc)
          as [(doc' & -> & _ & Hdoc) | (e & -> & Hdoc)]; cbn.
        -- destruct wr; cbn.
           ++ split; [|done]. split; [by intros [? [=]]|].
              intros [[[=] _] | (doc0 & [= <-] & _ & Hno)]. congruence.
           ++ split; [|done]. split; [by intros [? [=]]|].
              intros [[[=] _] | (doc0 & [= <-] & _ & Hno)]. congruence.
        -- split; [|done]. split; [|by eauto]. intros _. right. by exists doc.
      * change (patchPreferences (JObj ∅)) with (Normal (JObj
          (<["session" := assign (assign (JObj ∅) "restore_on_startup" (JNum 0))
                            "restore_on_startup_urls" (JArr [])]>
           (<["credentials_enable_autosignin" := JBool false]>
            (<["credentials_enable_service" := JBool false]>
             (<["profile" := JObj (<["password_manager_enabled" := JBool false]>
                                  (<["password_manager_leak_detection" := JBool false]> ∅))]>
              ∅)))))).
        destruct wr; cbn.
        -- split; [|done]. split; [by intros [? [=]]|].
           intros [[[=] _] | (doc & [=] & _)].
        -- split; [|done]. split; [by intros [? [=]]|].
           intros [[[=] _] | (doc & [=] & _)].
  - split; [|done]. split; [by intros [? [=]]|].
    intros [[[=] _] | (doc & [=] & _)].
Qed.

(** X3.  A [Preferences] file that holds [null] or a bare primitive stops
    the whole script: [main] rejects with the [TypeError] of the patch
    before the browser is launched, the disk and the browser are untouched,
    and the script itself logs nothing about the error. *)
Theorem main_stopped_by_unpatchable_preferences {W : Type} `{!Puppeteer W}
    (USERNAME PASSWORD userDataPath : string) (d : disk) (w : W) (doc : json) :
  preferencesFile d = Some (JsonText doc) →
  read_error d = None →
  patchable doc = false →
  ∃ message,
    LoginJs.main USERNAME PASSWORD userDataPath d w =
      (Throw (Err "TypeError" message), d, w, [Logged "Checking for Preferences file..."]).
Proof.
  intros Hfile Hread Hdoc.
  assert (userData d = Present (Some (JsonText doc))) as Hdir.
  { unfold preferencesFile in Hfile. destruct (userData d); by simplify_eq. }
  unfold LoginJs.main, updatePreferences, preferencesFile, readPreferences.
  rewrite Hdir. cbn -[patchPreferences]. rewrite Hdir, Hread.
  destruct doc; try done; cbn; by eexists.
Qed.

(** X3 on a file that holds [null]. *)
Lemma main_stopped_witness :
  let d := Disks.no_faults (Present (Some (JsonText JNull))) in
  preferencesFile d = Some (JsonText JNull) ∧ read_error d = None ∧
  patchable JNull = false ∧
  ∃ message,
    LoginJs.main "station1" "pw1" "user-data" d Portal.fresh =
      (Throw (Err "TypeError" message), d, Portal.fresh,
       [Logged "Checking for Preferences file..."]).
Proof.
  intros d. split; [done|]. split; [done|]. split; [done|].
  by apply (main_stopped_by_unpatchable_preferences "station1" "pw1" "user-data" d
              Portal.fresh JNull).
Defined.

Lemma patchPreferences_object (fields : gmap string json) :
  ∃ fields', patchPreferences (JObj fields) = Normal (JObj fields').
Proof. by eexists. Qed.

(** X4.  [updatePreferences] never removes or creates the [Preferences]
    file.  It leaves the disk as it found it unless it made the directory
    or completed the write; it writes at most once, and what it writes is
    a JSON object or array. *)
Theorem updatePreferences_frame (userDataPath : string) (d : disk) :
  let '(r, d', evs) := updatePreferences userDataPath d in
  (is_Some (preferencesFile d) ↔ is_Some (preferencesFile d')) ∧
  (count is_disk_change evs = 0 → d' = d) ∧
  count is_write evs ≤ 1 ∧
  (count is_write evs = 1 →
     r = Normal () ∧
     ∃ doc, preferencesFile d' = Some (JsonText doc) ∧ patchable doc = true).
Proof.
  destruct d as [[|[f|]] mk rd wr];
    unfold updatePreferences, preferencesFile, readPreferences;
    cbn -[patchPreferences].
  - destruct mk; cbn; [repeat split; (done || lia)|].
    split; [by split; intros [? [=]]|]. repeat split; (done || lia).
  - assert (∃ doc evs0,
      count is_disk_change evs0 = 0 ∧ count is_write evs0 = 0 ∧
      (let '(preferences, evs) :=
         match
           match rd with
           | Some e => inl e
           | None =>
               match f with
               | JsonText document => inr document
               | Garbled _ => inl (Err "SyntaxError" "Unexpected token in JSON")
               end
           end
         with
         | inl error =>
             (JObj ∅,
              [Logged "Checking for Preferences file...";
               LoggedError "Error reading Preferences file:" (Some error)])
         | inr document => (document, [Logged "Checking for Preferences file..."])
         end in (preferences, evs)) = (doc, evs0)) as (doc & evs0 & Hc0 & Hw0 & Hread).
    { destruct rd; [|destruct f];
        refine (ex_intro _ _ (ex_intro _ _ (conj _ (conj _ eq_refl)))); done. }
    revert Hread.
    destruct (match match rd with Some e => inl e | None => _ end with
              | inl error => _ | inr document => _ end) as [doc1 evs1].
    intros [= -> ->].
    destruct (patchPreferences_patchable doc)
      as [(doc' & -> & Hdoc' & _) | (e & -> & _)].
    + destruct wr; cbn.
      * rewrite !count_app, Hc0, Hw0. cbn. split; [done|]. split; [done|].
        split; [lia|]. done.
      * rewrite !count_app, Hc0, Hw0. cbn. split; [by split; eauto|].
        split; [done|]. split; [lia|]. intros _. split; [done|].
        exists (stringify doc'). by rewrite patchable_stringify.
    + rewrite Hw0. split; [done|]. split; [done|]. split; [lia|]. done.
  - repeat split; (done || lia).
Qed.

(** X5.  What is written where [session] or [profile] is not an object.
    A missing or falsy [session] ([null], [false], [0], the empty string)
    becomes an object with just the two session keys.  A truthy [session]
    that is not an object (a number, a string, [true], an array) does not
    get the two keys: it is written back as [JSON.stringify] writes it,
    which is as it was except for an infinite number, written as [null].  A
    missing [profile], or one that is [null], a boolean or a number, becomes
    an object with just the two password-manager keys. *)
Theorem patchPreferences_non_objects (fields : gmap string json) :
  ∃ fields' written,
    patchPreferences (JObj fields) = Normal (JObj fields') ∧
    stringify (JObj fields') = JObj written ∧
    (∀ userDataPath d,
       preferencesFile d = Some (JsonText (JObj fields)) →
       read_error d = None → write_error d = None →
       preferencesFile (updatePreferences userDataPath d).1.2
         = Some (JsonText (JObj written))) ∧
    (fields !! "session" = None ∨
     (∃ v, fields !! "session" = Some v ∧ truthy v = false) →
       written !! "session" =
         Some (JObj (<["restore_on_startup_urls" := JArr []]>
                     (<["restore_on_startup" := JNum 0]> ∅)))) ∧
    (∀ v, fields !! "session" = Some v → truthy v = true → is_object v = false →
       fields' !! "session" = Some v ∧
       written !! "session" = Some (stringify v) ∧
       (∀ x, v = JNum x → PrimFloat.is_infinity x = true →
             written !! "session" = Some JNull)) ∧
    (fields !! "profile" = None ∨
     (∃ v, fields !! "profile" = Some v ∧ patchable v = false ∧ ∀ s, v ≠ JStr s) →
       written !! "profile" =
         Some (JObj (<["password_manager_enabled" := JBool false]>
                     (<["password_manager_leak_detection" := JBool false]> ∅)))).
Proof.
  eexists _, _. split; [reflexivity|]. split; [reflexivity|]. split.
  { intros userDataPath d Hfile Hread Hwrite.
    assert (userData d = Present (Some (JsonText (JObj fields)))) as Hdir.
    { unfold preferencesFile in Hfile. destruct (userData d); by simplify_eq. }
    unfold updatePreferences. rewrite Hdir. cbn -[patchPreferences stringify].
    unfold preferencesFile, readPreferences. rewrite Hdir, Hread.
    cbn -[stringify]. by rewrite Hwrite. }
  rewrite !stringify_lookup.
  rewrite lookup_insert_eq.
  rewrite (lookup_insert_ne _ "credentials_enable_autosignin" "session") by done.
  rewrite (lookup_insert_ne _ "credentials_enable_service" "session") by done.
  rewrite (lookup_insert_ne _ "profile" "session") by done.
  rewrite (lookup_insert_ne _ "session" "profile") by done.
  rewrite (lookup_insert_ne _ "credentials_enable_autosignin" "profile") by done.
  rewrite (lookup_insert_ne _ "credentials_enable_service" "profile") by done.
  rewrite lookup_insert_eq.
  split; [|split].
  - intros [-> | (v & -> & ->)]; by vm_compute.
  - intros v -> -> Hv. destruct v as [|b|y|s|items|]; try done.
    all: split; [done|]; split; [done|]; intros x Hx Hinf; try done.
    injection Hx as ->. simpl. unfold number. by rewrite Hinf, orb_true_r.
  - intros [-> | (v & -> & Hv & Hstr)]; [by vm_compute|].
    destruct v as [|b|y|s|items|object];
      [by vm_compute | by vm_compute | by vm_compute | by destruct (Hstr s)
      | discriminate Hv | discriminate Hv].
Qed.

(** X5 on a document whose [session] is [1e999] and whose [profile] is
    [null]. *)
Lemma patchPreferences_non_objects_witness :
  let fields : gmap string json :=
    list_to_map [("session", JNum infinity); ("profile", JNull)] in
  let d := Disks.no_faults (Present (Some (JsonText (JObj fields)))) in
  fields !! "session" = Some (JNum infinity) ∧ truthy (JNum infinity) = true ∧
  is_object (JNum infinity) = false ∧
  fields !! "profile" = Some JNull ∧ patchable JNull = false ∧
  ∃ written,
    preferencesFile (updatePreferences "user-data" d).1.2
      = Some (JsonText (JObj written)) ∧
    written !! "session" = Some JNull ∧
    written !! "profile" =
      Some (JObj (<["password_manager_enabled" := JBool false]>
                  (<["password_manager_leak_detection" := JBool false]> ∅))).
Proof.
  intros fields d. split; [done|]. split; [done|]. split; [done|].
  split; [done|]. split; [done|].
  destruct (patchPreferences_non_objects fields)
    as (fields' & written & _ & _ & Hdisk & _ & Hkeep & Hprofile).
  exists written. split; [by apply Hdisk|]. split.
  - destruct (Hkeep (JNum infinity)) as (_ & _ & Hnull); [done..|].
    by apply (Hnull infinity).
  - apply Hprofile. right. exists JNull. by repeat split.
Defined.

(** ** The whole of [loginToRFSActiv] in [login.js] *)

Section LoginJsDriver.
Context {W : Type} `{!Puppeteer W} (USERNAME PASSWORD : string).

(** The five ways through [loginToRFSActiv]: the browser does not open, the
    login phase is exhausted, the navigation phase is exhausted, the zoom is
    rejected, or the timer is installed. *)
Lemma loginToRFSActiv_paths maxLoginAttempts maxNavigationAttempts (w : W) :
  LoginJs.loginToRFSActiv USERNAME PASSWORD maxLoginAttempts maxNavigationAttempts w =
  match LoginJs.openBrowser w with
  | (Throw e, w0, evs0) =>
      (Normal (), w0, evs0 ++ [LoggedError "Error during login:" (Some e)])
  | (Normal _, w0, evs0) =>
      match LoginJs.loginPhase USERNAME PASSWORD maxLoginAttempts w0 with
      | (Throw e, w1, evs1) =>
          (Normal (), w1, evs0 ++ evs1 ++ [LoggedError "Error during login:" (Some e)])
      | (Normal _, w1, evs1) =>
          match LoginJs.navigationPhase maxNavigationAttempts w1 with
          | (Throw e, w2, evs2) =>
              (Normal (), w2,
               evs0 ++ evs1 ++ evs2 ++ [LoggedError "Error during login:" (Some e)])
          | (Normal _, w2, evs2) =>
              match perform_call (EvaluateZoom "1.3") w2 with
              | (inl e, w3) =>
                  (Normal (), w3,
                   evs0 ++ evs1 ++ evs2 ++
                   [Called (EvaluateZoom "1.3");
                    LoggedError "Error during login:" (Some e)])
              | (inr _, w3) =>
                  (Normal (), w3,
                   evs0 ++ evs1 ++ evs2 ++
                   [Called (EvaluateZoom "1.3"); TimerSet 21600000])
              end
          end
      end
  end.
Proof.
  unfold LoginJs.loginToRFSActiv, try_catch. rewrite bind_run.
  destruct (LoginJs.openBrowser w) as [[[[]|e] w0] evs0]; [|done].
  rewrite bind_run.
  destruct (LoginJs.loginPhase USERNAME PASSWORD maxLoginAttempts w0)
    as [[[[]|e] w1] evs1]; [|simpl; by rewrite <- ?app_assoc].
  rewrite bind_run.
  destruct (LoginJs.navigationPhase maxNavigationAttempts w1)
    as [[[[]|e] w2] evs2]; [|simpl; by rewrite <- ?app_assoc].
  rewrite bind_run. unfold await at 1.
  destruct (perform_call (EvaluateZoom "1.3") w2) as [[e|[]] w3]; simpl.
  - by rewrite <- ?app_assoc.
  - by rewrite <- ?app_assoc.
Qed.

(** Whatever holds of every event of an attempt and of the delay holds of
    every event of the phase. *)
Lemma loginPhase_Forall (P : event → Prop) N (w : W) :
  (∀ k w, Forall P (attempt (LoginJs.loginTry USERNAME PASSWORD) LoginJs.loginCatch k w).2) →
  P (Slept retryDelay) →
  Forall P (LoginJs.loginPhase USERNAME PASSWORD N w).2.
Proof.
  intros Hatt Hdelay.
  destruct (retry_while_run N (LoginJs.loginTry USERNAME PASSWORD) LoginJs.loginCatch
              loginCatch_logs N 0 w) as (n & w' & evs & Hrun & Hn & Hev); [lia..|].
  unfold LoginJs.loginPhase. rewrite bind_run, Hrun.
  pose proof (loop_events_Forall N _ _ P 0 n evs Hatt Hdelay Hev) as Hall.
  destruct (n =? N); simpl; by rewrite app_nil_r.
Qed.

Lemma navigationPhase_Forall (P : event → Prop) N (w : W) :
  (∀ k w, Forall P (attempt LoginJs.navigationTry LoginJs.navigationCatch k w).2) →
  P (Slept retryDelay) →
  Forall P (LoginJs.navigationPhase N w).2.
Proof.
  intros Hatt Hdelay.
  destruct (retry_while_run N LoginJs.navigationTry LoginJs.navigationCatch
              navigationCatch_logs N 0 w) as (n & w' & evs & Hrun & Hn & Hev); [lia..|].
  unfold LoginJs.navigationPhase. rewrite bind_run, Hrun.
  pose proof (loop_events_Forall N _ _ P 0 n evs Hatt Hdelay Hev) as Hall.
  destruct (n =? N); simpl; by rewrite app_nil_r.
Qed.

Lemma navigationPhase_no_login N (w : W) :
  count is_login_attempt (LoginJs.navigationPhase N w).2 = 0.
Proof.
  apply count_none, navigationPhase_Forall; [|done].
  intros k w0. apply count_none, navigationAttempt_counts.
Qed.

Lemma loginAttempt_phase_events k (w : W) :
  Forall (phase_event USERNAME PASSWORD)
    (attempt (LoginJs.loginTry USERNAME PASSWORD) LoginJs.loginCatch k w).2.
Proof.
  unfold attempt, LoginJs.loginTry, LoginJs.formFlow, LoginJs.enterUsername,
    LoginJs.clickRememberMe, LoginJs.submitForm, LoginJs.checkLanding,
    LoginJs.loginCatch, phase_event.
  exec; repeat (apply Forall_cons; split;
    [repeat split; try done; first [by left | by right]|]); by apply Forall_nil.
Qed.

Lemma navigationAttempt_phase_events k (w : W) :
  Forall (phase_event USERNAME PASSWORD)
    (attempt LoginJs.navigationTry LoginJs.navigationCatch k w).2.
Proof.
  unfold attempt, LoginJs.navigationTry, LoginJs.navigationCatch, phase_event.
  exec; repeat (apply Forall_cons; split;
    [repeat split; try done; first [by left | by right]|]); by apply Forall_nil.
Qed.

Lemma phase_event_counts evs :
  Forall (phase_event USERNAME PASSWORD) evs →
  count is_launch evs = 0 ∧ count is_timer evs = 0 ∧
  Forall (types_credentials_only USERNAME PASSWORD) evs.
Proof.
  intros Hall. split; [|split].
  - apply count_none. eapply Forall_impl; [exact Hall|]. by intros e (? & ? & ?).
  - apply count_none. eapply Forall_impl; [exact Hall|]. by intros e (? & ? & ?).
  - eapply Forall_impl; [exact Hall|]. by intros e (? & ? & ?).
Qed.

Lemma loginPhase_phase_events N (w : W) :
  Forall (phase_event USERNAME PASSWORD) (LoginJs.loginPhase USERNAME PASSWORD N w).2.
Proof. apply loginPhase_Forall; [apply loginAttempt_phase_events | done]. Qed.

Lemma navigationPhase_phase_events N (w : W) :
  Forall (phase_event USERNAME PASSWORD) (LoginJs.navigationPhase N w).2.
Proof. apply navigationPhase_Forall; [apply navigationAttempt_phase_events | done]. Qed.

(** Opening the browser launches it once and does nothing else that the
    properties below count. *)
Lemma openBrowser_events (w w' : W) r evs :
  LoginJs.openBrowser w = (r, w', evs) →
  count is_launch evs = 1 ∧ count is_timer evs = 0 ∧ count is_delay evs = 0 ∧
  count is_login_attempt evs = 0 ∧ count is_dashboard_attempt evs = 0 ∧
  Forall fixed_delay evs ∧
  Forall (types_credentials_only USERNAME PASSWORD) evs.
Proof.
  unfold LoginJs.openBrowser. exec; intros [= <- <- <-];
    repeat split; try done;
    repeat (apply Forall_cons; split; [done|]); by apply Forall_nil.
Qed.

End LoginJsDriver.

(** X6.  [loginToRFSActiv] never rejects: whatever the browser does, the
    function returns normally, and the last thing it has done is either to
    install the refresh timer or to log the error that stopped it. *)
Theorem loginToRFSActiv_never_rejects {W : Type} `{!Puppeteer W}
    (USERNAME PASSWORD : string) (maxLoginAttempts maxNavigationAttempts : nat) (w : W) :
  let run := LoginJs.loginToRFSActiv USERNAME PASSWORD
               maxLoginAttempts maxNavigationAttempts w in
  run.1.1 = Normal () ∧
  (last run.2 = Some (TimerSet 21600000) ∨
   ∃ e, last run.2 = Some (LoggedError "Error during login:" (Some e))).
Proof.
  cbv zeta. rewrite loginToRFSActiv_paths.
  destruct (LoginJs.openBrowser w) as [[[[]|e] w0] evs0].
  2: { cbn [fst snd]. split; [done|]. right. exists e. by rewrite last_snoc. }
  destruct (LoginJs.loginPhase USERNAME PASSWORD maxLoginAttempts w0)
    as [[[[]|e] w1] evs1].
  2: { cbn [fst snd]. split; [done|]. right. exists e. by rewrite !app_assoc, last_snoc. }
  destruct (LoginJs.navigationPhase maxNavigationAttempts w1) as [[[[]|e] w2] evs2].
  2: { cbn [fst snd]. split; [done|]. right. exists e. by rewrite !app_assoc, last_snoc. }
  destruct (perform_call (EvaluateZoom "1.3") w2) as [[e|[]] w3].
  - cbn [fst snd]. split; [done|]. right. exists e.
    change [Called (EvaluateZoom "1.3"); LoggedError "Error during login:" (Some e)]
      with ([Called (EvaluateZoom "1.3")] ++ [LoggedError "Error during login:" (Some e)]).
    by rewrite !app_assoc, last_snoc.
  - cbn [fst snd]. split; [done|]. left.
    change [Called (EvaluateZoom "1.3"); TimerSet 21600000]
      with ([Called (EvaluateZoom "1.3")] ++ [TimerSet 21600000]).
    by rewrite !app_assoc, last_snoc.
Qed.

(** X7.  The effort of a run is bounded whatever the browser does: one
    launch, at most [maxLoginAttempts] navigations to the login page, at
    most [maxNavigationAttempts] navigations to the dashboard, at most one
    delay per attempt, every delay being [retryDelay], and at most one
    timer. *)
Theorem loginToRFSActiv_bounded {W : Type} `{!Puppeteer W}
    (USERNAME PASSWORD : string) (maxLoginAttempts maxNavigationAttempts : nat) (w : W) :
  let evs := (LoginJs.loginToRFSActiv USERNAME PASSWORD
                maxLoginAttempts maxNavigationAttempts w).2 in
  count is_launch evs = 1 ∧
  count is_login_attempt evs ≤ maxLoginAttempts ∧
  count is_dashboard_attempt evs ≤ maxNavigationAttempts ∧
  count is_delay evs ≤ count is_login_attempt evs + count is_dashboard_attempt evs ∧
  Forall fixed_delay evs ∧
  count is_timer evs ≤ 1.
Proof.
  cbv zeta. rewrite loginToRFSActiv_paths.
  destruct (LoginJs.openBrowser w) as [[r0 w0] evs0] eqn:Hopen.
  destruct (openBrowser_events USERNAME PASSWORD w w0 r0 evs0 Hopen)
    as (Hl0 & Ht0 & Hd0 & Ha0 & Hb0 & Hf0 & _).
  destruct r0 as [[]|e].
  2: { cbn [snd]. rewrite !count_app, Hl0, Ht0, Hd0, Ha0, Hb0. cbn.
       repeat split; try lia. apply Forall_app. split; [done|].
       by apply Forall_cons. }
  destruct (loginPhase_shape USERNAME PASSWORD maxLoginAttempts w0)
    as (r1 & w1 & evs1 & Hlogin & Hf1 & Hshape1).
  pose proof (loginPhase_no_dashboard USERNAME PASSWORD maxLoginAttempts w0) as Hb1.
  destruct (phase_event_counts USERNAME PASSWORD _
              (loginPhase_phase_events USERNAME PASSWORD maxLoginAttempts w0))
    as (Hl1 & Ht1 & _).
  rewrite Hlogin in *. cbn [snd] in Hb1, Hl1, Ht1.
  assert (count is_login_attempt evs1 ≤ maxLoginAttempts ∧
          count is_delay evs1 ≤ count is_login_attempt evs1) as [Ha1 Hd1].
  { destruct Hshape1 as [(_ & -> & ->) | (_ & Hc & Hle & _)]; lia. }
  destruct r1 as [[]|e].
  2: { cbn [snd]. rewrite !count_app, Hl0, Ht0, Hd0, Ha0, Hb0, Hl1, Ht1, Hb1. cbn.
       repeat split; try lia. rewrite !Forall_app. split; [done|]. split; [done|].
       by apply Forall_cons. }
  destruct (navigationPhase_shape maxNavigationAttempts w1)
    as (r2 & w2 & evs2 & Hnav & Hf2 & Hshape2).
  pose proof (navigationPhase_no_login maxNavigationAttempts w1) as Ha2.
  destruct (phase_event_counts USERNAME PASSWORD _
              (navigationPhase_phase_events USERNAME PASSWORD maxNavigationAttempts w1))
    as (Hl2 & Ht2 & _).
  rewrite Hnav in *. cbn [snd] in Ha2, Hl2, Ht2.
  assert (count is_dashboard_attempt evs2 ≤ maxNavigationAttempts ∧
          count is_delay evs2 ≤ count is_dashboard_attempt evs2) as [Hb2 Hd2].
  { destruct Hshape2 as [(_ & -> & ->) | (_ & Hc & Hle & _)]; lia. }
  destruct r2 as [[]|e].
  2: { cbn [snd].
       rewrite !count_app, Hl0, Ht0, Hd0, Ha0, Hb0, Hl1, Ht1, Hb1, Hl2, Ht2, Ha2. cbn.
       repeat split; try lia. rewrite !Forall_app. split; [done|]. split; [done|].
       split; [done|]. by apply Forall_cons. }
  destruct (perform_call (EvaluateZoom "1.3") w2) as [[e|[]] w3]; cbn [snd];
    rewrite !count_app, Hl0, Ht0, Hd0, Ha0, Hb0, Hl1, Ht1, Hb1, Hl2, Ht2, Ha2; cbn;
    (repeat split; try lia); rewrite !Forall_app;
    (split; [done|]); (split; [done|]); (split; [done|]);
    repeat (apply Forall_cons; split; [done|]); by apply Forall_nil.
Qed.

(** X8.  The phases run in order.  A run that navigates to the dashboard at
    all has logged the success of the login before its first such
    navigation, and never goes back to the login page after it; a run that
    installs the timer has, as its last three acts, reported the dashboard
    as loaded, set the zoom and installed the timer. *)
Theorem loginToRFSActiv_in_order {W : Type} `{!Puppeteer W}
    (USERNAME PASSWORD : string) (maxLoginAttempts maxNavigationAttempts : nat) (w : W) :
  let evs := (LoginJs.loginToRFSActiv USERNAME PASSWORD
                maxLoginAttempts maxNavigationAttempts w).2 in
  (0 < count is_dashboard_attempt evs →
     ∃ before after,
       evs = before ++ Logged "Login successful!" :: after ∧
       count is_dashboard_attempt before = 0 ∧
       count is_login_attempt after = 0) ∧
  (0 < count is_timer evs →
     ∃ before,
       evs = before ++ [Logged "Dashboard loaded."; Called (EvaluateZoom "1.3");
                        TimerSet 21600000]).
Proof.
  cbv zeta. rewrite loginToRFSActiv_paths.
  destruct (LoginJs.openBrowser w) as [[r0 w0] evs0] eqn:Hopen.
  destruct (openBrowser_events USERNAME PASSWORD w w0 r0 evs0 Hopen)
    as (Hl0 & Ht0 & Hd0 & Ha0 & Hb0 & Hf0 & _).
  destruct r0 as [[]|e].
  2: { cbn [snd]. rewrite !count_app, Ht0, Hb0. cbn. split; lia. }
  destruct (loginPhase_shape USERNAME PASSWORD maxLoginAttempts w0)
    as (r1 & w1 & evs1 & Hlogin & Hf1 & Hshape1).
  pose proof (loginPhase_no_dashboard USERNAME PASSWORD maxLoginAttempts w0) as Hb1.
  destruct (phase_event_counts USERNAME PASSWORD _
              (loginPhase_phase_events USERNAME PASSWORD maxLoginAttempts w0))
    as (Hl1 & Ht1 & _).
  rewrite Hlogin in *. cbn [snd] in Hb1, Hl1, Ht1.
  destruct r1 as [[]|e].
  2: { cbn [snd]. rewrite !count_app, Ht0, Hb0, Ht1, Hb1. cbn. split; lia. }
  assert (∃ l, evs1 = l ++ [Logged "Login successful!"]) as [l Hleq].
  { destruct Hshape1 as [([=] & _) | (_ & _ & _ & Hlast)]. by apply last_Some. }
  assert (count is_dashboard_attempt l = 0) as Hbl.
  { rewrite Hleq, count_app in Hb1. lia. }
  destruct (navigationPhase_shape maxNavigationAttempts w1)
    as (r2 & w2 & evs2 & Hnav & Hf2 & Hshape2).
  pose proof (navigationPhase_no_login maxNavigationAttempts w1) as Ha2.
  destruct (phase_event_counts USERNAME PASSWORD _
              (navigationPhase_phase_events USERNAME PASSWORD maxNavigationAttempts w1))
    as (Hl2 & Ht2 & _).
  rewrite Hnav in *. cbn [snd] in Ha2, Hl2, Ht2.
  assert (∀ tail,
    count is_login_attempt tail = 0 →
    ∃ before after,
      evs0 ++ evs1 ++ evs2 ++ tail
        = before ++ Logged "Login successful!" :: after ∧
      count is_dashboard_attempt before = 0 ∧ count is_login_attempt after = 0) as Hsplit.
  { intros tail Htail. exists (evs0 ++ l), (evs2 ++ tail). split.
    - rewrite Hleq. by rewrite <- !app_assoc.
    - rewrite !count_app, Hb0, Hbl, Ha2, Htail. lia. }
  destruct r2 as [[]|e].
  2: { cbn [snd]. split; [intros _; by apply Hsplit|].
       rewrite !count_app, Ht0, Ht1, Ht2. cbn. lia. }
  assert (∃ l2, evs2 = l2 ++ [Logged "Dashboard loaded."]) as [l2 Hl2eq].
  { destruct Hshape2 as [([=] & _) | (_ & _ & _ & Hlast)]. by apply last_Some. }
  destruct (perform_call (EvaluateZoom "1.3") w2) as [[e|[]] w3]; cbn [snd].
  - split; [intros _; by apply Hsplit|].
    rewrite !count_app, Ht0, Ht1, Ht2. cbn. lia.
  - split; [intros _; by apply Hsplit|]. intros _.
    exists (evs0 ++ evs1 ++ l2).
    rewrite Hl2eq. by rewrite <- !app_assoc.
Qed.

(** X8 on a first run of the portal. *)
Lemma loginToRFSActiv_in_order_witness :
  let evs := (LoginJs.loginToRFSActiv "station1" "pw1" 5 5 Portal.fresh).2 in
  0 < count is_dashboard_attempt evs ∧ 0 < count is_timer evs ∧
  (∃ before after,
     evs = before ++ Logged "Login successful!" :: after ∧
     count is_dashboard_attempt before = 0 ∧
     count is_login_attempt after = 0) ∧
  (∃ before,
     evs = before ++ [Logged "Dashboard loaded."; Called (EvaluateZoom "1.3");
                      TimerSet 21600000]).
Proof.
  intros evs.
  destruct (loginToRFSActiv_in_order "station1" "pw1" 5 5 Portal.fresh) as [Hdash Htimer].
  assert (0 < count is_dashboard_attempt evs) as H1 by (vm_compute; lia).
  assert (0 < count is_timer evs) as H2 by (vm_compute; lia).
  split; [exact H1|]. split; [exact H2|].
  split; [exact (Hdash H1) | exact (Htimer H2)].
Defined.

(** X9.  The script types nothing but the credentials, each into its own
    field: in every run, whatever the browser does, every [page.type] types
    the username into the username field or the password into the password
    field. *)
Theorem loginToRFSActiv_types_credentials_only {W : Type} `{!Puppeteer W}
    (USERNAME PASSWORD : string) (maxLoginAttempts maxNavigationAttempts : nat) (w : W) :
  Forall (types_credentials_only USERNAME PASSWORD)
    (LoginJs.loginToRFSActiv USERNAME PASSWORD
       maxLoginAttempts maxNavigationAttempts w).2.
Proof.
  rewrite loginToRFSActiv_paths.
  destruct (LoginJs.openBrowser w) as [[r0 w0] evs0] eqn:Hopen.
  destruct (openBrowser_events USERNAME PASSWORD w w0 r0 evs0 Hopen)
    as (_ & _ & _ & _ & _ & _ & Hty0).
  destruct (phase_event_counts USERNAME PASSWORD _
              (loginPhase_phase_events USERNAME PASSWORD maxLoginAttempts w0))
    as (_ & _ & Hty1).
  destruct r0 as [[]|e].
  2: { cbn [snd]. apply Forall_app. split; [done|]. by apply Forall_cons. }
  destruct (LoginJs.loginPhase USERNAME PASSWORD maxLoginAttempts w0)
    as [[r1 w1] evs1].
  cbn [snd] in Hty1.
  destruct (phase_event_counts USERNAME PASSWORD _
              (navigationPhase_phase_events USERNAME PASSWORD maxNavigationAttempts w1))
    as (_ & _ & Hty2).
  destruct r1 as [[]|e].
  2: { cbn [snd]. rewrite !Forall_app. split; [done|]. split; [done|].
       by apply Forall_cons. }
  destruct (LoginJs.navigationPhase maxNavigationAttempts w1) as [[r2 w2] evs2].
  cbn [snd] in Hty2.
  destruct r2 as [[]|e].
  2: { cbn [snd]. rewrite !Forall_app. split; [done|]. split; [done|].
       split; [done|]. by apply Forall_cons. }
  destruct (perform_call (EvaluateZoom "1.3") w2) as [[e|[]] w3]; cbn [snd];
    rewrite !Forall_app; (split; [done|]); (split; [done|]); (split; [done|]);
    repeat (apply Forall_cons; split; [done|]); by apply Forall_nil.
Qed.

(** ** Where a phase leaves the browser *)

Section BreakState.
Context {W : Type} `{!Puppeteer W}.
Context (max : nat) (block : M W signal) (on_error : nat → M W ()).
Hypothesis on_error_logs : ∀ k w, ∃ evs, on_error k w = (Normal (), w, evs).

(** A loop that is left before the bound is left in the state in which one
    of its attempts broke out. *)
Lemma retry_while_break_state fuel a (w w' : W) n evs :
  a ≤ max → max - a ≤ fuel →
  retry_while fuel max block on_error a w = (Normal n, w', evs) →
  n < max →
  ∃ k w0 evs0, attempt block on_error k w0 = (Normal Break, w', evs0).
Proof.
  revert a w evs. induction fuel as [|fuel IH]; intros a w evs Ha Hfuel Hrun Hn.
  - simpl in Hrun. injection Hrun as <- <- <-. lia.
  - simpl in Hrun. destruct (a <? max) eqn:Hlt.
    + apply Nat.ltb_lt in Hlt. rewrite bind_run in Hrun.
      destruct (attempt_normal block on_error on_error_logs a w) as (s & w1 & evs1 & Hatt).
      rewrite Hatt in Hrun. destruct s.
      * injection Hrun as <- <- <-. by eauto.
      * rewrite bind_run in Hrun. unfold sleep at 1 in Hrun.
        destruct (retry_while fuel max block on_error (S a) (elapse retryDelay w1))
          as [[r2 w2] evs2] eqn:Hrest.
        injection Hrun as -> -> <-.
        eapply (IH (S a)); [lia|lia|exact Hrest|done].
    + injection Hrun as <- <- <-. apply Nat.ltb_ge in Hlt. lia.
Qed.

End BreakState.

Section PhaseEnds.
Context {W : Type} `{!Puppeteer W} (USERNAME PASSWORD : string).

Lemma loginAttempt_break_url k (w w' : W) evs :
  attempt (LoginJs.loginTry USERNAME PASSWORD) LoginJs.loginCatch k w
    = (Normal Break, w', evs) →
  includes (page_url w') pages.webapp.url = true.
Proof.
  unfold attempt, LoginJs.loginTry, LoginJs.formFlow, LoginJs.enterUsername,
    LoginJs.clickRememberMe, LoginJs.submitForm, LoginJs.checkLanding,
    LoginJs.loginCatch.
  exec; intros [= <- <-].
  all: match goal with
  | H : includes _ pages.dashboard.url || includes _ pages.webapp.url = true |- _ =>
      apply orb_prop in H as [H|H]; [by apply includes_dashboard_webapp | done]
  end.
Qed.

Lemma navigationAttempt_break_url k (w w' : W) evs :
  attempt LoginJs.navigationTry LoginJs.navigationCatch k w = (Normal Break, w', evs) →
  includes (page_url w') pages.dashboard.url = true.
Proof.
  unfold attempt, LoginJs.navigationTry, LoginJs.navigationCatch.
  exec; by intros [= <- <-].
Qed.

End PhaseEnds.

(** X10.  A phase that succeeds leaves the browser where it says: after a
    successful login phase the URL of the page contains the application base
    URL, and after a successful navigation phase it contains the dashboard
    URL. *)
Theorem phases_end_on_the_right_page {W : Type} `{!Puppeteer W}
    (USERNAME PASSWORD : string) (N : nat) (w w' : W) (evs : list event) :
  (LoginJs.loginPhase USERNAME PASSWORD N w = (Normal (), w', evs) →
     includes (page_url w') pages.webapp.url = true) ∧
  (LoginJs.navigationPhase N w = (Normal (), w', evs) →
     includes (page_url w') pages.dashboard.url = true).
Proof.
  split.
  - unfold LoginJs.loginPhase. rewrite bind_run.
    destruct (retry_while_run N (LoginJs.loginTry USERNAME PASSWORD) LoginJs.loginCatch
                loginCatch_logs N 0 w) as (n & w1 & evs1 & Hrun & Hn & _); [lia..|].
    rewrite Hrun. destruct (n =? N) eqn:Hmax; simpl; [done|].
    intros [= <- _]. apply Nat.eqb_neq in Hmax.
    destruct (retry_while_break_state N (LoginJs.loginTry USERNAME PASSWORD)
                LoginJs.loginCatch loginCatch_logs N 0 w w1 n evs1)
      as (k & w0 & evs0 & Hbreak); [lia|lia|done|lia|].
    by eapply loginAttempt_break_url.
  - unfold LoginJs.navigationPhase. rewrite bind_run.
    destruct (retry_while_run N LoginJs.navigationTry LoginJs.navigationCatch
                navigationCatch_logs N 0 w) as (n & w1 & evs1 & Hrun & Hn & _); [lia..|].
    rewrite Hrun. destruct (n =? N) eqn:Hmax; simpl; [done|].
    intros [= <- _]. apply Nat.eqb_neq in Hmax.
    destruct (retry_while_break_state N LoginJs.navigationTry
                LoginJs.navigationCatch navigationCatch_logs N 0 w w1 n evs1)
      as (k & w0 & evs0 & Hbreak); [lia|lia|done|lia|].
    by eapply navigationAttempt_break_url.
Qed.

(** X10 on a first run of the portal, and on a browser that is signed in. *)
Lemma phases_end_witness :
  let w1 := Portal.move pages.dashboard.url true Portal.fresh in
  LoginJs.loginPhase "station1" "pw1" 5 Portal.fresh
    = (Normal (), w1, (LoginJs.loginPhase "station1" "pw1" 5 Portal.fresh).2) ∧
  includes (page_url w1) pages.webapp.url = true ∧
  LoginJs.navigationPhase 5 w1 = (Normal (), w1, (LoginJs.navigationPhase 5 w1).2) ∧
  includes (page_url w1) pages.dashboard.url = true.
Proof.
  intros w1.
  assert (LoginJs.loginPhase "station1" "pw1" 5 Portal.fresh
    = (Normal (), w1, (LoginJs.loginPhase "station1" "pw1" 5 Portal.fresh).2)) as H1
    by (by vm_compute).
  assert (LoginJs.navigationPhase 5 w1 = (Normal (), w1, (LoginJs.navigationPhase 5 w1).2))
    as H2 by (by vm_compute).
  split; [exact H1|]. split.
  - exact (proj1 (phases_end_on_the_right_page "station1" "pw1" 5 Portal.fresh w1 _) H1).
  - split; [exact H2|].
    exact (proj2 (phases_end_on_the_right_page "station1" "pw1" 5 w1 w1 _) H2).
Defined.

(** X11.  In the success test of the login loop the dashboard URL is
    subsumed by the application base URL: the attempt is counted as a
    success exactly when the URL of the page contains the base URL. *)
Theorem checkLanding_is_the_base_url_test {W : Type} `{!Puppeteer W} (w : W) :
  (LoginJs.checkLanding w).1.1 =
    Normal (if includes (page_url w) pages.webapp.url then Break else Fallthrough)
  ∧ (LoginTs.isloggedInPage w).1.1 = Normal (includes (page_url w) pages.webapp.url).
Proof.
  unfold LoginJs.checkLanding, LoginTs.isloggedInPage. rewrite !bind_run. unfold url.
  destruct (includes (page_url w) pages.dashboard.url) eqn:Hdash.
  - rewrite (includes_dashboard_webapp _ Hdash). by simpl.
  - simpl. by destruct (includes (page_url w) pages.webapp.url).
Qed.

(** ** The TypeScript port *)

Section LoginTsAttempts.
Context {W : Type} `{!Puppeteer W} (USERNAME PASSWORD : string).

Lemma LoginTs_loginCatch_logs k (w : W) :
  ∃ evs, LoginTs.loginCatch k w = (Normal (), w, evs).
Proof. by eexists. Qed.

Ltac unfold_ts :=
  unfold attempt, LoginTs.loginTry, LoginTs.isloggedInPage, LoginTs.loginCatch.

Lemma LoginTs_loginAttempt_counts k (w : W) :
  count is_login_attempt
    (attempt (LoginTs.loginTry USERNAME PASSWORD) LoginTs.loginCatch k w).2 = 1 ∧
  count is_delay
    (attempt (LoginTs.loginTry USERNAME PASSWORD) LoginTs.loginCatch k w).2 = 0.
Proof. unfold_ts. exec; done. Qed.

Lemma LoginTs_loginAttempt_break k (w w' : W) evs :
  attempt (LoginTs.loginTry USERNAME PASSWORD) LoginTs.loginCatch k w
    = (Normal Break, w', evs) →
  last evs = Some (Logged "Login successful!") ∧
  includes (page_url w') pages.webapp.url = true.
Proof.
  unfold_ts. exec; intros [= <- <-]; (split; [done|]).
  all: match goal with
  | H : includes _ pages.dashboard.url || includes _ pages.webapp.url = true |- _ =>
      apply orb_prop in H as [H|H]; [by apply includes_dashboard_webapp | done]
  end.
Qed.

End LoginTsAttempts.

(** X12.  The login phase of the TypeScript port, whatever the browser
    does: failed attempts, each followed by one wait of [retryDelay], and
    then either the exhaustion error after [N] attempts, or a success that
    nothing is waited for after and that leaves the page on a URL
    containing the application base URL. *)
Theorem LoginTs_loginPhase_shape {W : Type} `{!Puppeteer W}
    (USERNAME PASSWORD : string) (N : nat) (w : W) :
  ∃ r w' evs,
    LoginTs.loginPhase USERNAME PASSWORD N w = (r, w', evs) ∧
    Forall fixed_delay evs ∧
    ((r = Throw (Error "Max login attempts reached. Unable to login.") ∧
      count is_login_attempt evs = N ∧ count is_delay evs = N)
     ∨
     (r = Normal () ∧
      count is_login_attempt evs = count is_delay evs + 1 ∧
      count is_login_attempt evs ≤ N ∧
      last evs = Some (Logged "Login successful!") ∧
      includes (page_url w') pages.webapp.url = true)).
Proof.
  destruct (retry_while_shape is_login_attempt (Logged "Login successful!") N
              (LoginTs.loginTry USERNAME PASSWORD) LoginTs.loginCatch w)
    as (n & w' & evs & Hrun & Hn & Hd & Ha & Hf & Hl).
  - apply LoginTs_loginCatch_logs.
  - apply LoginTs_loginAttempt_counts.
  - apply LoginTs_loginAttempt_counts.
  - intros k w0 w1 evs0 Hbreak.
    by destruct (LoginTs_loginAttempt_break USERNAME PASSWORD k w0 w1 evs0 Hbreak).
  - done.
  - unfold LoginTs.loginPhase. rewrite bind_run, Hrun.
    destruct (n =? N) eqn:Hmax.
    + apply Nat.eqb_eq in Hmax as ->. rewrite Nat.ltb_irrefl in Ha.
      eexists _, _, _. split; [reflexivity|]. rewrite app_nil_r.
      split; [done|]. left. split; [done|]. split; lia.
    + apply Nat.eqb_neq in Hmax. assert (n < N) as Hlt by lia.
      replace (n <? N) with true in Ha by (symmetry; by apply Nat.ltb_lt).
      destruct (retry_while_break_state N (LoginTs.loginTry USERNAME PASSWORD)
                  LoginTs.loginCatch LoginTs_loginCatch_logs N 0 w w' n evs)
        as (k & w0 & evs0 & Hbreak); [lia|lia|done|lia|].
      destruct (LoginTs_loginAttempt_break USERNAME PASSWORD k w0 w' evs0 Hbreak)
        as [_ Hurl].
      eexists _, _, _. split; [reflexivity|]. rewrite app_nil_r.
      split; [done|]. right. split; [done|]. split; [lia|]. split; [lia|].
      split; [by apply Hl | exact Hurl].
Qed.

(** [isloggedInPage] reads the URL and nothing else; its two tests amount to
    the second. *)
Lemma isloggedInPage_run {W : Type} `{!Puppeteer W} (w : W) :
  LoginTs.isloggedInPage w = (Normal (includes (page_url w) pages.webapp.url), w, []).
Proof.
  unfold LoginTs.isloggedInPage. rewrite bind_run. unfold url.
  destruct (includes (page_url w) pages.dashboard.url) eqn:Hdash.
  - rewrite (includes_dashboard_webapp _ Hdash). by simpl.
  - simpl. by destruct (includes (page_url w) pages.webapp.url).
Qed.

(** X13.  When the login form is absent, the TypeScript port decides the
    attempt by the URL alone: if the URL contains the application base URL
    the phase succeeds at once, with three events and no interaction with a
    form; if not, the attempt fails. *)
Theorem LoginTs_absent_form_decided_by_url {W : Type} `{!Puppeteer W}
    (USERNAME PASSWORD : string) (N : nat) (w w1 w2 : W) :
  perform_call (Goto pages.login.url networkidle2) w = (inr (), w1) →
  query_selector pages.login.username w1 = (inr false, w2) →
  (includes (page_url w2) pages.webapp.url = true →
     LoginTs.loginPhase USERNAME PASSWORD (S N) w =
       (Normal (), w2,
        [Called (Goto pages.login.url networkidle2); Queried pages.login.username;
         Logged "Login successful!"])) ∧
  (includes (page_url w2) pages.webapp.url = false →
     LoginTs.loginTry USERNAME PASSWORD w =
       (Normal Fallthrough, w2,
        [Called (Goto pages.login.url networkidle2); Queried pages.login.username;
         Logged "Login form not detected. Retrying..."])).
Proof.
  intros Hgoto Hquery.
  assert (∀ b, includes (page_url w2) pages.webapp.url = b →
    LoginTs.loginTry USERNAME PASSWORD w =
      (Normal (if b then Break else Fallthrough), w2,
       [Called (Goto pages.login.url networkidle2); Queried pages.login.username;
        Logged (if b then "Login successful!"
                else "Login form not detected. Retrying...")])) as Htry.
  { intros b Hb. unfold LoginTs.loginTry.
    rewrite bind_run. unfold await at 1. rewrite Hgoto. simpl.
    rewrite bind_run. unfold page_query at 1. rewrite Hquery. simpl.
    rewrite bind_run, isloggedInPage_run, Hb. by destruct b. }
  split.
  - intros Hurl. unfold LoginTs.loginPhase. simpl retry_while.
    rewrite bind_run, bind_run. unfold attempt, try_catch.
    by rewrite (Htry true Hurl).
  - intros Hurl. exact (Htry false Hurl).
Qed.

(** X13 on a browser that is signed in. *)
Lemma LoginTs_absent_form_witness :
  let w1 := Portal.move pages.dashboard.url true Portal.returning in
  perform_call (Goto pages.login.url networkidle2) Portal.returning = (inr (), w1) ∧
  query_selector pages.login.username w1 = (inr false, w1) ∧
  includes (page_url w1) pages.webapp.url = true ∧
  LoginTs.loginPhase "station1" "pw1" 5 Portal.returning =
    (Normal (), w1,
     [Called (Goto pages.login.url networkidle2); Queried pages.login.username;
      Logged "Login successful!"]).
Proof.
  intros w1. split; [done|]. split; [done|]. split; [done|].
  by apply (LoginTs_absent_form_decided_by_url "station1" "pw1" 4 Portal.returning w1 w1).
Defined.

Lemma or_empty_id (s : string) : LoginTs.or_empty s = s.
Proof. unfold LoginTs.or_empty. by case_decide. Qed.

(** X14.  The awaited calls of an attempt of the TypeScript port, in order:
    the navigation, then the form sequence of C6, without the [page.focus]
    of [login.js].  An attempt cut short has made an initial part of them. *)
Theorem LoginTs_calls_in_order {W : Type} `{!Puppeteer W}
    (USERNAME PASSWORD : string) (w : W) :
  ∃ remember : bool,
    calls (LoginTs.loginTry USERNAME PASSWORD w).2
      `prefix_of`
      Goto pages.login.url networkidle2 :: form_sequence USERNAME PASSWORD remember.
Proof.
  unfold LoginTs.loginTry, LoginTs.isloggedInPage, form_sequence.
  rewrite !or_empty_id.
  exec.
  all: first [ exists true; by eexists | exists false; by eexists ].
Qed.

(** * The earlier versions of the script *)

(** X15.  The second version makes a single pass, whatever the browser
    does: it never waits, navigates to the login page at most once and to
    the dashboard at most twice, and never rejects; it ends having either
    installed the refresh timer or logged the error that stopped it, never
    both. *)
Theorem LoginV2_single_pass {W : Type} `{!Puppeteer W}
    (USERNAME PASSWORD : string) (w : W) :
  let run := LoginV2.loginToRFSActiv USERNAME PASSWORD w in
  run.1.1 = Normal () ∧
  count is_delay run.2 = 0 ∧
  count is_login_attempt run.2 ≤ 1 ∧
  count is_dashboard_attempt run.2 ≤ 2 ∧
  count is_timer run.2 + count is_error_report run.2 = 1.
Proof.
  cbv zeta.
  unfold LoginV2.loginToRFSActiv, LoginJs.openBrowser, LoginJs.formFlow,
    LoginJs.enterUsername, LoginJs.clickRememberMe, LoginJs.submitForm.
  exec.
  all: repeat split; vm_compute; lia.
Qed.

(** X16.  The second version takes the end of the form flow for a login:
    once the navigation that follows Verify has been waited for, it logs the
    success and goes on to the dashboard, wherever the page has landed. *)
Theorem LoginV2_reports_success_unchecked {W : Type} `{!Puppeteer W}
    (USERNAME PASSWORD : string) (w w0 w1 w2 w3 : W) (evs0 evs : list event) :
  LoginJs.openBrowser w = (Normal (), w0, evs0) →
  perform_call (Goto pages.login.url networkidle2) w0 = (inr (), w1) →
  query_selector LoginV2.loginForm w1 = (inr true, w2) →
  LoginJs.formFlow USERNAME PASSWORD w2 = (Normal (), w3, evs) →
  ∃ rest,
    (LoginV2.loginToRFSActiv USERNAME PASSWORD w).2 =
      evs0
      ++ [Called (Goto pages.login.url networkidle2); Queried LoginV2.loginForm;
          Logged "Login form detected. Logging in..."]
      ++ evs
      ++ [Logged "Login successful!"; Logged "Navigating to dashboard...";
          Called (Goto pages.dashboard.url networkidle0)]
      ++ rest.
Proof.
  intros Hopen Hgoto Hform Hflow.
  unfold LoginV2.loginToRFSActiv, try_catch.
  rewrite bind_run, Hopen.
  rewrite bind_run. unfold await at 1. rewrite Hgoto. cbn [of_reply].
  rewrite bind_run. unfold page_query at 1. rewrite Hform. cbn [of_reply].
  rewrite bind_assoc, bind_run. unfold _log at 1.
  rewrite bind_assoc, bind_run, Hflow.
  rewrite bind_run. unfold _log at 1.
  rewrite bind_run. unfold _log at 1.
  rewrite bind_run. unfold await at 1.
  destruct (perform_call (Goto pages.dashboard.url networkidle0) w3) as [[e|[]] w4];
    cbn [of_reply].
  - exists [LoggedError "Error during login:" (Some e)].
    cbn. by repeat (rewrite <- app_assoc; cbn).
  - destruct ((_log "Dashboard loaded.";; await (EvaluateZoom "1.4");;
               await (Goto pages.dashboard.url networkidle0);;
               setInterval refreshTick (3600000 * 6)) w4) as [[[[]|e] w5] evs5].
    + exists evs5. cbn. by repeat (rewrite <- app_assoc; cbn).
    + exists (evs5 ++ [LoggedError "Error during login:" (Some e)]).
      cbn. by repeat (rewrite <- app_assoc; cbn).
Qed.

(** X16 on a portal that rejects the credentials: the page is back on the
    login form, and the run says [Login successful!]. *)
Lemma LoginV2_reports_success_witness :
  let w := {| PortalV2.site := Portal.rejected |} in
  let w1 := {| PortalV2.site := Portal.move pages.login.url false Portal.rejected |} in
  let evs0 := (LoginJs.openBrowser w).2 in
  let evs := (LoginJs.formFlow "station1" "wrong" w1).2 in
  page_url w1 = pages.login.url ∧
  LoginJs.formFlow "station1" "wrong" w1 = (Normal (), w1, evs) ∧
  ∃ rest,
    (LoginV2.loginToRFSActiv "station1" "wrong" w).2 =
      evs0
      ++ [Called (Goto pages.login.url networkidle2); Queried LoginV2.loginForm;
          Logged "Login form detected. Logging in..."]
      ++ evs
      ++ [Logged "Login successful!"; Logged "Navigating to dashboard...";
          Called (Goto pages.dashboard.url networkidle0)]
      ++ rest.
Proof.
  intros w w1 evs0 evs. split; [by vm_compute|]. split; [by vm_compute|].
  apply (LoginV2_reports_success_unchecked "station1" "wrong" w w w1 w1 w1 evs0 evs);
    by vm_compute.
Defined.

(** X17.  The first version never reaches the site.  The open tabs are bound
    to a constant that hides the site table, so reading the login URL throws
    once the browser is open: whatever the browser does and whatever the
    rest of the function is, no navigation is made and no timer installed;
    the function returns normally, and the last thing it does is to log the
    error, which is that [TypeError] unless opening the browser failed. *)
Theorem LoginV1_never_reaches_the_site {W : Type} `{!Puppeteer W}
    (rest : M W ()) (w : W) :
  let run := LoginV1.loginToRFSActiv rest w in
  run.1.1 = Normal () ∧
  count is_goto run.2 = 0 ∧
  count is_timer run.2 = 0 ∧
  ∃ error,
    last run.2 = Some (LoggedError "Error during login:" (Some error)) ∧
    (error = Err "TypeError" "Cannot read properties of undefined (reading 'url')" ∨
     (LoginJs.openBrowser w).1.1 = Throw error).
Proof.
  cbv zeta.
  unfold LoginV1.loginToRFSActiv, LoginV1.pages_login_url, LoginJs.openBrowser.
  exec.
  all: repeat split; try done.
  all: eexists; split; [reflexivity|]; first [by left | by right].
Qed.

(** * The request interceptor *)

(** X18.  The handler aborts exactly the requests whose URL contains
    [chrome://password-manager], once, and lets every other request
    continue.  Every request is answered: by the abort or by a
    [continue()], and a call that throws is followed by the logged error
    and one more [continue()], so that a request whose first [continue()]
    threw is continued twice.  The handler rejects only after it has logged
    an error. *)
Theorem onRequest_blocks_the_password_manager_only {R : Type}
    `{!Interceptor.Request R} (r : R) :
  let '(result, _, acts) := Interceptor.onRequest r in
  Interceptor.tally Interceptor.is_abort acts =
    (if includes (Interceptor.request_url r) "chrome://password-manager" then 1 else 0) ∧
  Interceptor.tally Interceptor.is_abort acts
    + Interceptor.tally Interceptor.is_continue acts
    = 1 + Interceptor.tally Interceptor.is_complaint acts ∧
  Interceptor.tally Interceptor.is_complaint acts ≤ 1 ∧
  (result = Normal () ∨ Interceptor.tally Interceptor.is_complaint acts = 1).
Proof.
  unfold Interceptor.onRequest.
  destruct (includes _ _).
  - destruct (Interceptor.request_abort r) as [[e|[]] r1]; cbn.
    + destruct (Interceptor.request_continue r1) as [[e'|[]] r2]; cbn;
        repeat split; first [lia | by left | by right].
    + repeat split; first [lia | by left].
  - destruct (Interceptor.request_continue r) as [[e|[]] r1]; cbn.
    + destruct (Interceptor.request_continue r1) as [[e'|[]] r2]; cbn;
        repeat split; first [lia | by left | by right].
    + repeat split; first [lia | by left].
Qed.

(** ** The whole of [loginToRFSActiv] in the TypeScript port *)

Section PhaseCounts.
Context {W : Type} `{!Puppeteer W}.
Context (N : nat) (block : M W signal) (on_error : nat → M W ()).
Hypothesis on_error_logs : ∀ k w, ∃ evs, on_error k w = (Normal (), w, evs).

(** What no attempt does, the loop does not do. *)
Lemma retry_while_count_none (p : event → bool) (w : W) :
  (∀ k w, count p (attempt block on_error k w).2 = 0) →
  p (Slept retryDelay) = false →
  count p (retry_while N N block on_error 0 w).2 = 0.
Proof.
  intros Hp Hsleep.
  destruct (retry_while_run N block on_error on_error_logs N 0 w)
    as (n & w' & evs & Hrun & Hn & Hev); [lia..|].
  rewrite Hrun. cbn [snd].
  rewrite (loop_events_count N block on_error p 0 0 n evs Hp Hev).
  simpl. rewrite Hsleep. destruct (n <? N); lia.
Qed.

(** What every attempt does once, the loop does at most [N] times, and it
    waits at most as often. *)
Lemma retry_while_count_attempts (p : event → bool) (w : W) :
  (∀ k w, count p (attempt block on_error k w).2 = 1) →
  (∀ k w, count is_delay (attempt block on_error k w).2 = 0) →
  p (Slept retryDelay) = false →
  count p (retry_while N N block on_error 0 w).2 ≤ N ∧
  count is_delay (retry_while N N block on_error 0 w).2
    ≤ count p (retry_while N N block on_error 0 w).2.
Proof.
  intros Hp Hdelay Hsleep.
  destruct (retry_while_run N block on_error on_error_logs N 0 w)
    as (n & w' & evs & Hrun & Hn & Hev); [lia..|].
  rewrite Hrun. cbn [snd].
  rewrite (loop_events_count N block on_error p 1 0 n evs Hp Hev).
  rewrite (loop_events_count N block on_error is_delay 0 0 n evs Hdelay Hev).
  simpl. rewrite Hsleep. destruct (Nat.ltb_spec n N); lia.
Qed.

(** A phase is its loop, then the test of the counter. *)
Lemma phase_run (error : exn) (w : W) :
  ∃ n w',
    retry_while N N block on_error 0 w
      = (Normal n, w', (retry_while N N block on_error 0 w).2) ∧
    (attempts ← retry_while N N block on_error 0;
     if attempts =? N then throw error else mret ()) w
      = (if n =? N then Throw error else Normal (), w',
         (retry_while N N block on_error 0 w).2).
Proof.
  destruct (retry_while_run N block on_error on_error_logs N 0 w)
    as (n & w' & evs & Hrun & _); [lia..|].
  exists n, w'. rewrite bind_run, Hrun. split; [done|].
  destruct (n =? N); cbn; by rewrite app_nil_r.
Qed.

End PhaseCounts.

Section LoginTsDriver.
Context {W : Type} `{!Puppeteer W} (USERNAME PASSWORD : string).

Lemma LoginTs_navigationCatch_logs k (w : W) :
  ∃ evs, LoginTs.navigationCatch k w = (Normal (), w, evs).
Proof. by eexists. Qed.

Lemma LoginTs_loginAttempt_tally k (w : W) :
  tally_of (attempt (LoginTs.loginTry USERNAME PASSWORD) LoginTs.loginCatch k w).2
  = [0; 1; 0; 0; 0; 0].
Proof.
  unfold attempt, LoginTs.loginTry, LoginTs.isloggedInPage, LoginTs.loginCatch.
  exec; done.
Qed.

Lemma LoginTs_navigationAttempt_tally k (w : W) :
  tally_of (attempt LoginTs.navigationTry LoginTs.navigationCatch k w).2
  = [0; 0; 1; 0; 0; 0].
Proof.
  unfold attempt, LoginTs.navigationTry, LoginTs.navigationCatch.
  exec; done.
Qed.

Lemma LoginTs_openBrowser_tally (w : W) :
  tally_of (LoginTs.openBrowser w).2 = [1; 0; 0; 0; 0; 0].
Proof. unfold LoginTs.openBrowser. exec; done. Qed.

Lemma LoginTs_loginPhase_tally N (w : W) :
  ∃ r w' evs logins delays,
    LoginTs.loginPhase USERNAME PASSWORD N w = (r, w', evs) ∧
    tally_of evs = [0; logins; 0; delays; 0; 0] ∧ logins ≤ N ∧ delays ≤ logins.
Proof.
  destruct (phase_run N (LoginTs.loginTry USERNAME PASSWORD) LoginTs.loginCatch
              LoginTs_loginCatch_logs
              (Error "Max login attempts reached. Unable to login.") w)
    as (n & w' & _ & Hphase).
  pose proof (λ p, retry_while_count_none N (LoginTs.loginTry USERNAME PASSWORD)
                     LoginTs.loginCatch LoginTs_loginCatch_logs p w) as Hnone.
  destruct (retry_while_count_attempts N (LoginTs.loginTry USERNAME PASSWORD)
              LoginTs.loginCatch LoginTs_loginCatch_logs is_login_attempt w)
    as [Hle Hdelay]; [intros k w0; by injection (LoginTs_loginAttempt_tally k w0)..|done|].
  eexists _, _, _, _, _. split; [exact Hphase|]. split; [|split; [exact Hle|exact Hdelay]].
  unfold tally_of.
  rewrite (Hnone is_launch), (Hnone is_dashboard_attempt), (Hnone is_timer),
    (Hnone is_error_report); [done|..]; try done;
    intros k w0; by injection (LoginTs_loginAttempt_tally k w0).
Qed.

Lemma LoginTs_navigationPhase_tally N (w : W) :
  ∃ r w' evs navigations delays,
    LoginTs.navigationPhase N w = (r, w', evs) ∧
    tally_of evs = [0; 0; navigations; delays; 0; 0] ∧
    navigations ≤ N ∧ delays ≤ navigations.
Proof.
  destruct (phase_run N LoginTs.navigationTry LoginTs.navigationCatch
              LoginTs_navigationCatch_logs
              (Error "Max navigation attempts reached. Unable to navigate to dashboard.") w)
    as (n & w' & _ & Hphase).
  pose proof (λ p, retry_while_count_none N LoginTs.navigationTry
                     LoginTs.navigationCatch LoginTs_navigationCatch_logs p w) as Hnone.
  destruct (retry_while_count_attempts N LoginTs.navigationTry
              LoginTs.navigationCatch LoginTs_navigationCatch_logs is_dashboard_attempt w)
    as [Hle Hdelay];
    [intros k w0; by injection (LoginTs_navigationAttempt_tally k w0)..|done|].
  eexists _, _, _, _, _. split; [exact Hphase|]. split; [|split; [exact Hle|exact Hdelay]].
  unfold tally_of.
  rewrite (Hnone is_launch), (Hnone is_login_attempt), (Hnone is_timer),
    (Hnone is_error_report); [done|..]; try done;
    intros k w0; by injection (LoginTs_navigationAttempt_tally k w0).
Qed.

End LoginTsDriver.

(** X19.  The TypeScript port, whatever the browser does: [loginToRFSActiv]
    never rejects; it launches the browser once, navigates to the login page
    at most [maxLoginAttempts] times and to the dashboard at most
    [maxNavigationAttempts] times, and waits at most once per navigation; it
    ends having either installed the refresh timer or logged the error that
    stopped it, never both. *)
Theorem LoginTs_loginToRFSActiv_bounded {W : Type} `{!Puppeteer W}
    (USERNAME PASSWORD : string) (maxLoginAttempts maxNavigationAttempts : nat) (w : W) :
  let run := LoginTs.loginToRFSActiv USERNAME PASSWORD
               maxLoginAttempts maxNavigationAttempts w in
  run.1.1 = Normal () ∧
  count is_launch run.2 = 1 ∧
  count is_login_attempt run.2 ≤ maxLoginAttempts ∧
  count is_dashboard_attempt run.2 ≤ maxNavigationAttempts ∧
  count is_delay run.2 ≤ count is_login_attempt run.2 + count is_dashboard_attempt run.2 ∧
  count is_timer run.2 + count is_error_report run.2 = 1.
Proof.
  cbv zeta. unfold LoginTs.loginToRFSActiv, try_catch. rewrite bind_run.
  pose proof (LoginTs_openBrowser_tally w) as H0.
  destruct (LoginTs.openBrowser w) as [[[[]|e] w0] evs0]; cbn [snd] in H0;
    injection H0 as Hl0 Ha0 Hb0 Hd0 Ht0 He0.
  2: { unfold console_error. cbn [fst snd]. rewrite !count_app.
       repeat match goal with H : count _ _ = _ |- _ => rewrite H end.
       cbn. repeat split; lia. }
  rewrite bind_run.
  destruct (LoginTs_loginPhase_tally USERNAME PASSWORD maxLoginAttempts w0)
    as (r1 & w1 & evs1 & logins & delays1 & -> & H1 & Hle1 & Hde1).
  injection H1 as Hl1 Ha1 Hb1 Hd1 Ht1 He1.
  destruct r1 as [[]|e].
  2: { unfold console_error. cbn [fst snd]. rewrite !count_app.
       repeat match goal with H : count _ _ = _ |- _ => rewrite H end.
       cbn. repeat split; lia. }
  rewrite bind_run.
  destruct (LoginTs_navigationPhase_tally maxNavigationAttempts w1)
    as (r2 & w2 & evs2 & navigations & delays2 & -> & H2 & Hle2 & Hde2).
  injection H2 as Hl2 Ha2 Hb2 Hd2 Ht2 He2.
  destruct r2 as [[]|e].
  2: { unfold console_error. cbn [fst snd]. rewrite !count_app.
       repeat match goal with H : count _ _ = _ |- _ => rewrite H end.
       cbn. repeat split; lia. }
  rewrite bind_run. unfold await.
  destruct (perform_call (EvaluateZoom "1.25") w2) as [[e|[]] w3];
    cbn [of_reply]; unfold setInterval, console_error; cbn [fst snd];
    rewrite !count_app;
    repeat match goal with H : count _ _ = _ |- _ => rewrite H end;
    cbn; repeat split; lia.
Qed.

(** ** Runs of [updatePreferences] on sample disks *)

(** X2 on a [Preferences] file that holds [null]: the run rejects and the
    disk is as it was. *)
Lemma updatePreferences_rejects_witness :
  let d := Disks.no_faults (Present (Some (JsonText JNull))) in
  (∃ e, (updatePreferences "user-data" d).1.1 = Throw e) ∧
  (updatePreferences "user-data" d).1.2 = d.
Proof.
  intros d.
  destruct (updatePreferences_rejects_iff "user-data" d) as [[_ Hrejects] Hsame].
  assert (∃ e, (updatePreferences "user-data" d).1.1 = Throw e) as [e He].
  { apply Hrejects. right. exists JNull. by repeat split. }
  split; [by exists e | exact (Hsame e He)].
Defined.

(** X4 on the profile of an earlier run: one write, of a JSON object. *)
Lemma updatePreferences_frame_witness :
  let run := updatePreferences "user-data" Disks.used in
  count is_write run.2 = 1 ∧
  run.1.1 = Normal () ∧
  ∃ doc, preferencesFile run.1.2 = Some (JsonText doc) ∧ patchable doc = true.
Proof.
  intros run.
  assert (count is_write run.2 = 1) as Hwrite by by vm_compute.
  split; [exact Hwrite|].
  pose proof (updatePreferences_frame "user-data" Disks.used) as Hframe.
  fold run in Hframe. destruct run as [[r d'] evs].
  destruct Hframe as (_ & _ & _ & Hwritten). exact (Hwritten Hwrite).
Defined.
